(** * Microblog backend (backend/main.py): a shallow embedding

    The program is a FastAPI application over three SQLAlchemy tables
    (users, posts, likes) stored in SQLite.  The embedding keeps the three
    tables as lists of rows in insertion order, every request handler as a
    function from the database to a result and a new database, and the
    exceptions a handler can end with as an explicit error type. *)

From Stdlib Require Import ZArith String Ascii List.
From stdpp Require Import base tactics option list strings gmap sorting.

Local Open Scope Z_scope.
Local Open Scope string_scope.

(** ** Rows of the three tables (main.py, lines 30-55) *)

Module UserDB.
Record t : Type := Build { id : string; username : string; password : string }.
End UserDB.

Module PostDB.
Record t : Type := Build {
  id : string;
  text : string;
  timestamp : Z;
  owner_id : string;
  owner_username : string
}.
End PostDB.

Module LikeDB.
Record t : Type := Build { id : Z; user_id : string; post_id : string }.
End LikeDB.

(** ** Pydantic models (lines 58-78) *)

Module Post.
Record t : Type := Build {
  id : string;
  text : string;
  timestamp : Z;
  owner_id : string;
  owner_username : string
}.
(** [orm_mode]: the response model is read off the row, field by field. *)
Definition from_orm (p : PostDB.t) : t :=
  Build (PostDB.id p) (PostDB.text p) (PostDB.timestamp p)
        (PostDB.owner_id p) (PostDB.owner_username p).
End Post.

Module PostCreate.
Record t : Type := Build { text : string }.
End PostCreate.

Module User.
Record t : Type := Build { id : string; username : string }.
Definition from_orm (u : UserDB.t) : t := Build (UserDB.id u) (UserDB.username u).
End User.

Module PostWithLikes.
Record t : Type := Build {
  id : string;
  text : string;
  timestamp : Z;
  owner_id : string;
  owner_username : string;
  likes_count : nat;
  liked_by_me : bool
}.
Definition post (r : t) : Post.t :=
  Post.Build (id r) (text r) (timestamp r) (owner_id r) (owner_username r).
End PostWithLikes.

#[global] Instance UserDB_eq_dec : EqDecision UserDB.t.
Proof. solve_decision. Defined.
#[global] Instance PostDB_eq_dec : EqDecision PostDB.t.
Proof. solve_decision. Defined.
#[global] Instance LikeDB_eq_dec : EqDecision LikeDB.t.
Proof. solve_decision. Defined.
#[global] Instance User_eq_dec : EqDecision User.t.
Proof. solve_decision. Defined.

(** ** The database: one list of rows per table, oldest row first *)

Record Db : Type := mkDb {
  users : list UserDB.t;
  posts : list PostDB.t;
  likes : list LikeDB.t
}.

Definition empty_db : Db := mkDb [] [] [].

(** ** How a request ends

    A handler either returns a body or raises.  [HTTPException] carries the
    status the handler chose; a [RequestValidationError] is FastAPI's answer
    (422) to a required parameter or body field that is missing; the two
    remaining exceptions are never caught in main.py and reach the client as
    500. *)

Inductive exn : Type :=
| HTTPException (status_code : Z) (detail : string)
| RequestValidationError
| IntegrityError
| IndexError.

Inductive result (A : Type) : Type :=
| Ok (a : A)
| Raise (e : exn).
Arguments Ok {A} a.
Arguments Raise {A} e.

Definition HTTP_400_BAD_REQUEST : Z := 400.
Definition HTTP_401_UNAUTHORIZED : Z := 401.
Definition HTTP_403_FORBIDDEN : Z := 403.
Definition HTTP_404_NOT_FOUND : Z := 404.

Definition exn_status (e : exn) : Z :=
  match e with
  | HTTPException c _ => c
  | RequestValidationError => 422
  | IntegrityError => 500
  | IndexError => 500
  end.

(** The status line of the response; [default] is the route's
    [status_code] (200 when the decorator gives none). *)
Definition status_of {A} (default : Z) (r : result A) : Z :=
  match r with
  | Ok _ => default
  | Raise e => exn_status e
  end.

#[global] Instance result_ret : MRet result := λ A a, Ok a.
#[global] Instance result_bind : MBind result := λ A B k r,
  match r with
  | Ok a => k a
  | Raise e => Raise e
  end.

(** A handler that raises leaves the database as it found it: the session
    is closed by [get_db] without a commit. *)
Definition commit_or_rollback {A} (db : Db) (r : result (A * Db)) : result A * Db :=
  match r with
  | Ok (a, db') => (Ok a, db')
  | Raise e => (Raise e, db)
  end.

(** ** Python string operations used by the handlers *)

Definition startswith (s p : string) : bool := String.prefix p s.

(** [s.split(sep)] for a one-character separator: every occurrence cuts,
    empty pieces are kept, and the result is never empty. *)
Fixpoint split (sep : ascii) (s : string) : list string :=
  match s with
  | EmptyString => [EmptyString]
  | String c s' =>
      if Ascii.eqb c sep then EmptyString :: split sep s'
      else match split sep s' with
           | [] => [String c EmptyString]
           | w :: ws => String c w :: ws
           end
  end.

(** Truth value of a Python string: only the empty one is false. *)
Definition truthy (s : string) : bool :=
  match s with EmptyString => false | String _ _ => true end.

(** ** Queries *)

(** [db.query(T).filter_by(...)] keeps the rows that satisfy the equalities. *)
Definition filter_by {A} (P : A → Prop) `{∀ x, Decision (P x)} (rows : list A) : list A :=
  filter P rows.

(** [.first()], [.count()] *)
Definition first {A} (rows : list A) : option A := head rows.
Definition count {A} (rows : list A) : nat := length rows.

(** [.order_by(PostDB.timestamp.desc())]; a timestamp is an instant on the
    UTC time line, counted in microseconds.  The newest row comes first, and
    rows with the same timestamp stay in table order, as SQLite's sorter
    leaves them. *)
Definition newer_first (p q : PostDB.t) : Prop :=
  (PostDB.timestamp q ≤ PostDB.timestamp p)%Z.
#[global] Instance newer_first_dec p q : Decision (newer_first p q).
Proof. unfold newer_first. apply _. Defined.

Fixpoint insert_newer_first (p : PostDB.t) (sorted : list PostDB.t) : list PostDB.t :=
  match sorted with
  | [] => [p]
  | q :: rest =>
      if decide (newer_first p q) then p :: q :: rest
      else q :: insert_newer_first p rest
  end.

Definition order_by_timestamp_desc (rows : list PostDB.t) : list PostDB.t :=
  foldr insert_newer_first [] rows.

(** [xs[i]]: an index out of range raises. *)
Definition getitem {A} (xs : list A) (i : nat) : result A :=
  match xs !! i with
  | Some x => Ok x
  | None => Raise IndexError
  end.

(** ** What a commit does to the tables

    The constraints are the ones the table declarations carry: the primary
    keys, [unique=True] on [users.username], [_user_post_uc] on
    [likes (user_id, post_id)] and [nullable=False].  SQLite does not enforce
    the foreign keys (the engine never switches them on).  A violated
    constraint makes [db.commit()] raise [IntegrityError], which no handler
    catches. *)

Definition insert_user (u : UserDB.t) (db : Db) : result Db :=
  if bool_decide (UserDB.id u ∈ UserDB.id <$> users db)
     || bool_decide (UserDB.username u ∈ UserDB.username <$> users db)
  then Raise IntegrityError
  else Ok (mkDb (users db ++ [u]) (posts db) (likes db)).

Definition insert_post (p : PostDB.t) (db : Db) : result Db :=
  if bool_decide (PostDB.id p ∈ PostDB.id <$> posts db)
  then Raise IntegrityError
  else Ok (mkDb (users db) (posts db ++ [p]) (likes db)).

(** [likes.id] is an INTEGER PRIMARY KEY left unset by the handler: SQLite
    gives the new row the largest id in the table plus one. *)
Definition next_like_id (rows : list LikeDB.t) : Z :=
  foldr Z.max 0 (LikeDB.id <$> rows) + 1.

Definition insert_like (user_id post_id : string) (db : Db) : result Db :=
  match filter_by (λ l, LikeDB.user_id l = user_id ∧ LikeDB.post_id l = post_id) (likes db) with
  | [] =>
      Ok (mkDb (users db) (posts db)
               (likes db ++ [LikeDB.Build (next_like_id (likes db)) user_id post_id]))
  | _ :: _ => Raise IntegrityError
  end.

(** [db.delete(post); db.commit()].  [PostDB.likes] is a relationship without
    a delete cascade (line 46), so the unit of work first detaches the
    post's likes by writing NULL into their [post_id]; that column is
    [nullable=False] (line 52), so the commit is refused as soon as one like
    refers to the post.  Without such a like the post row is deleted. *)
Definition delete_post_row (p : PostDB.t) (db : Db) : result Db :=
  match filter_by (λ l, LikeDB.post_id l = PostDB.id p) (likes db) with
  | [] =>
      Ok (mkDb (users db) (filter (λ q, PostDB.id q ≠ PostDB.id p) (posts db)) (likes db))
  | _ :: _ => Raise IntegrityError
  end.

(** [db.delete(like); db.commit()]: the row is deleted by primary key. *)
Definition delete_like_row (l : LikeDB.t) (db : Db) : Db :=
  mkDb (users db) (posts db) (filter (λ k, LikeDB.id k ≠ LikeDB.id l) (likes db)).

(** ** Seed data and start-up (lines 81-95) *)

Definition FAKE_USERS_DB : list (string * UserDB.t) :=
  [ ("user1", UserDB.Build "1" "user1" "password1");
    ("user2", UserDB.Build "2" "user2" "password2") ].

Definition values {K V} (d : list (K * V)) : list V := snd <$> d.

(** The session does not autoflush, so every look-up of the loop reads the
    tables as they were; the missing users are written by the one commit. *)
Definition on_startup (db : Db) : result Db :=
  let missing :=
    filter (λ u, first (filter_by (λ r, UserDB.username r = UserDB.username u) (users db)) = None)
           (values FAKE_USERS_DB) in
  foldl (λ acc u, d ← acc; insert_user u d) (Ok db) missing.

(** ** Authentication (lines 106-122) *)

Definition get_current_user (authorization : string) (db : Db) : result User.t :=
  if negb (startswith authorization "Bearer ")
  then Raise (HTTPException HTTP_401_UNAUTHORIZED "Invalid scheme")
  else
    token ← getitem (split " " authorization) 1;
    match first (filter_by (λ u, UserDB.username u = token) (users db)) with
    | None => Raise (HTTPException HTTP_401_UNAUTHORIZED "Invalid token")
    | Some user_db => Ok (User.from_orm user_db)
    end.

Module Token.
Record t : Type := Build { access_token : string; token_type : string; user : User.t }.
End Token.

(** [filter_by(username=None)] compares with NULL, which no row of a
    [nullable=False] column satisfies. *)
Definition login (form_data : gmap string string) (db : Db) : result Token.t :=
  let username := form_data !! "username" in
  let password := form_data !! "password" in
  let user :=
    match username with
    | Some name => first (filter_by (λ u, UserDB.username u = name) (users db))
    | None => None
    end in
  match user with
  | None => Raise (HTTPException HTTP_401_UNAUTHORIZED "Incorrect username or password")
  | Some user =>
      if bool_decide (Some (UserDB.password user) ≠ password)
      then Raise (HTTPException HTTP_401_UNAUTHORIZED "Incorrect username or password")
      else Ok (Token.Build (UserDB.username user) "bearer"
                           (User.Build (UserDB.id user) (UserDB.username user)))
  end.

(** ** Listing posts (lines 125-149 and 200-227) *)

(** Lines 128-133 and 206-211: the caller of a listing, if any. *)
Definition optional_user_id (authorization : option string) (db : Db) : result (option string) :=
  match authorization with
  | None => Ok None
  | Some a =>
      if truthy a && startswith a "Bearer " then
        token ← getitem (split " " a) 1;
        match first (filter_by (λ u, UserDB.username u = token) (users db)) with
        | Some user => Ok (Some (UserDB.id user))
        | None => Ok None
        end
      else Ok None
  end.

(** Lines 136-148 and 214-226: the body of the loop over the posts. *)
Definition with_likes (user_id : option string) (db : Db) (post : PostDB.t) : PostWithLikes.t :=
  let likes_count := count (filter_by (λ l, LikeDB.post_id l = PostDB.id post) (likes db)) in
  let liked_by_me :=
    match user_id with
    | Some uid =>
        if truthy uid then
          bool_decide (first (filter_by (λ l, LikeDB.post_id l = PostDB.id post
                                              ∧ LikeDB.user_id l = uid) (likes db)) ≠ None)
        else false
    | None => false
    end in
  PostWithLikes.Build (PostDB.id post) (PostDB.text post) (PostDB.timestamp post)
                      (PostDB.owner_id post) (PostDB.owner_username post)
                      likes_count liked_by_me.

Definition list_posts (authorization : option string) (db : Db) : result (list PostWithLikes.t) :=
  let posts := order_by_timestamp_desc (posts db) in
  user_id ← optional_user_id authorization db;
  Ok (with_likes user_id db <$> posts).

Definition get_user_posts (username : string) (authorization : option string) (db : Db)
  : result (list PostWithLikes.t) :=
  match first (filter_by (λ u, UserDB.username u = username) (users db)) with
  | None => Raise (HTTPException HTTP_404_NOT_FOUND "User not found")
  | Some user =>
      let posts :=
        order_by_timestamp_desc
          (filter_by (λ p, PostDB.owner_id p = UserDB.id user) (posts db)) in
      user_id ← optional_user_id authorization db;
      Ok (with_likes user_id db <$> posts)
  end.

(** ** Creating and deleting posts (lines 151-173) *)

(** [uuid4] and [now] are what [uuid.uuid4()] and [datetime.now] return
    during the call. *)
Definition create_post (post_data : PostCreate.t) (current_user : User.t)
    (uuid4 : string) (now : Z) (db : Db) : result Post.t * Db :=
  let new_post :=
    PostDB.Build uuid4 (PostCreate.text post_data) now
                 (User.id current_user) (User.username current_user) in
  commit_or_rollback db (db' ← insert_post new_post db; Ok (Post.from_orm new_post, db')).

Definition delete_post (post_id : string) (current_user : User.t) (db : Db) : result unit * Db :=
  match first (filter_by (λ p, PostDB.id p = post_id) (posts db)) with
  | None => (Raise (HTTPException HTTP_404_NOT_FOUND "Post not found"), db)
  | Some post =>
      if bool_decide (PostDB.owner_id post ≠ User.id current_user)
      then (Raise (HTTPException HTTP_403_FORBIDDEN "Not authorized to delete this post"), db)
      else commit_or_rollback db (db' ← delete_post_row post db; Ok ((), db'))
  end.

(** ** Likes (lines 176-197) *)

(** Lines 178-185: the two look-ups of [like_post] and the row it decides
    to add, as (user_id, post_id). *)
Definition like_post_reads (post_id : string) (current_user : User.t) (db : Db)
  : result (string * string) :=
  match first (filter_by (λ p, PostDB.id p = post_id) (posts db)) with
  | None => Raise (HTTPException HTTP_404_NOT_FOUND "Post not found")
  | Some post =>
      match first (filter_by (λ l, LikeDB.user_id l = User.id current_user
                                   ∧ LikeDB.post_id l = post_id) (likes db)) with
      | Some like => Raise (HTTPException HTTP_400_BAD_REQUEST "Already liked")
      | None => Ok (User.id current_user, post_id)
      end
  end.

(** Lines 186-188: the commit of the new row and the answer. *)
Definition like_post_commit (new_like : string * string) (db : Db) : result string * Db :=
  commit_or_rollback db (db' ← insert_like new_like.1 new_like.2 db; Ok ("Liked", db')).

Definition like_post (post_id : string) (current_user : User.t) (db : Db) : result string * Db :=
  match like_post_reads post_id current_user db with
  | Raise e => (Raise e, db)
  | Ok new_like => like_post_commit new_like db
  end.

Definition unlike_post (post_id : string) (current_user : User.t) (db : Db) : result unit * Db :=
  match first (filter_by (λ l, LikeDB.user_id l = User.id current_user
                               ∧ LikeDB.post_id l = post_id) (likes db)) with
  | None => (Raise (HTTPException HTTP_404_NOT_FOUND "Like not found"), db)
  | Some like => (Ok (), delete_like_row like db)
  end.

(** ** The routes: what FastAPI does around a handler

    A parameter declared [Annotated[str, Header()]] is required: without the
    header the dependency is not called and the request is answered 422.  A
    dependency that raises ends the request before the body is validated. *)

Definition Depends_get_current_user (authorization : option string) (db : Db) : result User.t :=
  match authorization with
  | None => Raise RequestValidationError
  | Some a => get_current_user a db
  end.

(** The JSON body of [POST /api/posts], as the fields it carries. *)
Definition parse_PostCreate (body : gmap string string) : result PostCreate.t :=
  match body !! "text" with
  | Some text => Ok (PostCreate.Build text)
  | None => Raise RequestValidationError
  end.

Definition with_current_user {A} (authorization : option string) (db : Db)
    (handler : User.t → Db → result A * Db) : result A * Db :=
  match Depends_get_current_user authorization db with
  | Raise e => (Raise e, db)
  | Ok current_user => handler current_user db
  end.

(** The body of [POST /api/login]: [None] stands for a request without a
    body, or with one that is not a JSON object of strings; FastAPI answers
    it 422 and does not call [login]. *)
Definition parse_form_data (body : option (gmap string string))
  : result (gmap string string) :=
  match body with
  | Some form_data => Ok form_data
  | None => Raise RequestValidationError
  end.

Inductive request : Type :=
| POST_login (body : option (gmap string string))
| GET_posts (authorization : option string)
| POST_posts (authorization : option string) (body : gmap string string) (uuid4 : string) (now : Z)
| DELETE_post (post_id : string) (authorization : option string)
| POST_like (post_id : string) (authorization : option string)
| DELETE_like (post_id : string) (authorization : option string)
| GET_user_posts (username : string) (authorization : option string).

(** The status of the answer and the database after the request. *)
Definition serve (req : request) (db : Db) : Z * Db :=
  match req with
  | POST_login body =>
      (status_of 200 (form_data ← parse_form_data body; login form_data db), db)
  | GET_posts authorization => (status_of 200 (list_posts authorization db), db)
  | POST_posts authorization body uuid4 now =>
      let '(r, db') :=
        with_current_user authorization db (λ current_user db,
          match parse_PostCreate body with
          | Raise e => (Raise e, db)
          | Ok post_data => create_post post_data current_user uuid4 now db
          end) in
      (status_of 201 r, db')
  | DELETE_post post_id authorization =>
      let '(r, db') := with_current_user authorization db (delete_post post_id) in
      (status_of 204 r, db')
  | POST_like post_id authorization =>
      let '(r, db') := with_current_user authorization db (like_post post_id) in
      (status_of 201 r, db')
  | DELETE_like post_id authorization =>
      let '(r, db') := with_current_user authorization db (unlike_post post_id) in
      (status_of 204 r, db')
  | GET_user_posts username authorization =>
      (status_of 200 (get_user_posts username authorization db), db)
  end.

(** The databases the service can be in: the one start-up builds from
    nothing, and whatever a request or a restart makes of a reachable one. *)
Inductive reachable : Db → Prop :=
| reachable_startup db :
    on_startup empty_db = Ok db → reachable db
| reachable_restart db db' :
    reachable db → on_startup db = Ok db' → reachable db'
| reachable_serve req db :
    reachable db → reachable (serve req db).2.

(** ** Example data *)

Definition user1 : User.t := User.Build "1" "user1".
Definition user2 : User.t := User.Build "2" "user2".
Definition seeded_users : list UserDB.t := values FAKE_USERS_DB.
Definition seeded_db : Db := mkDb seeded_users [] [].

Definition hello : PostDB.t := PostDB.Build "p1" "hello" 100 "1" "user1".
Definition world : PostDB.t := PostDB.Build "p2" "world" 200 "2" "user2".
Definition two_posts_db : Db := mkDb seeded_users [hello; world] [].
Definition liked_db : Db :=
  mkDb seeded_users [hello; world] [LikeDB.Build 1 "2" "p1"].

(** ** Vocabulary of the statements *)

(** The exceptions the handlers raise. *)
Definition bad_credentials : exn :=
  HTTPException HTTP_401_UNAUTHORIZED "Incorrect username or password".
Definition post_not_found : exn := HTTPException HTTP_404_NOT_FOUND "Post not found".
Definition already_liked : exn := HTTPException HTTP_400_BAD_REQUEST "Already liked".
Definition like_not_found : exn := HTTPException HTTP_404_NOT_FOUND "Like not found".
Definition not_owner : exn :=
  HTTPException HTTP_403_FORBIDDEN "Not authorized to delete this post".
Definition user_not_found : exn := HTTPException HTTP_404_NOT_FOUND "User not found".

(** The pair [_user_post_uc] constrains. *)
Definition like_key (l : LikeDB.t) : string * string :=
  (LikeDB.user_id l, LikeDB.post_id l).

(** The table constraints, the seeded users, and no like without its post. *)
Record db_ok (db : Db) : Prop := {
  ok_users : users db = seeded_users;
  ok_post_ids : NoDup (PostDB.id <$> posts db);
  ok_like_ids : NoDup (LikeDB.id <$> likes db);
  ok_like_keys : NoDup (like_key <$> likes db);
  ok_like_posts : ∀ l, l ∈ likes db → LikeDB.post_id l ∈ PostDB.id <$> posts db
}.

(** What a listing of the stored rows [stored] is for the caller [caller]
    (the id of the user the request resolved to, if any). *)
Record listing_of (caller : option string) (db : Db) (stored : list PostDB.t)
    (rows : list PostWithLikes.t) : Prop := {
  listing_posts :
    PostWithLikes.post <$> rows ≡ₚ Post.from_orm <$> stored;
  listing_sorted :
    StronglySorted
      (λ a b, (PostWithLikes.timestamp b ≤ PostWithLikes.timestamp a)%Z) rows;
  listing_count : ∀ r, r ∈ rows →
    PostWithLikes.likes_count r
    = length (filter (λ l, LikeDB.post_id l = PostWithLikes.id r) (likes db));
  listing_liked : ∀ r, r ∈ rows →
    PostWithLikes.liked_by_me r = true ↔
    ∃ uid l, caller = Some uid ∧ l ∈ likes db
             ∧ LikeDB.user_id l = uid ∧ LikeDB.post_id l = PostWithLikes.id r;
  listing_anonymous :
    caller = None → ∀ r, r ∈ rows → PostWithLikes.liked_by_me r = false
}.

(** The routes behind [Depends(get_current_user)], and the header of a
    request. *)
Definition requires_caller (req : request) : bool :=
  match req with
  | POST_posts _ _ _ _ | DELETE_post _ _ | POST_like _ _ | DELETE_like _ _ => true
  | POST_login _ | GET_posts _ | GET_user_posts _ _ => false
  end.

Definition authorization_of (req : request) : option string :=
  match req with
  | POST_login _ => None
  | GET_posts a | POST_posts a _ _ _ | DELETE_post _ a | POST_like _ a
  | DELETE_like _ a | GET_user_posts _ a => a
  end.

(** The statuses a route can answer with. *)
Definition statuses (req : request) : list Z :=
  match req with
  | POST_login _ => [200; 401; 422]
  | GET_posts _ => [200]
  | POST_posts _ _ _ _ => [201; 401; 422; 500]
  | DELETE_post _ _ => [204; 401; 403; 404; 422; 500]
  | POST_like _ _ => [201; 400; 401; 404; 422]
  | DELETE_like _ _ => [204; 401; 404; 422]
  | GET_user_posts _ _ => [200; 404]
  end.

(** Every post names a stored user as its owner, by id and by name, and
    every like is the like of a stored user. *)
Definition refs_ok (db : Db) : Prop :=
  (∀ p, p ∈ posts db →
     ∃ u, u ∈ users db ∧ UserDB.id u = PostDB.owner_id p
          ∧ UserDB.username u = PostDB.owner_username p)
  ∧ (∀ l, l ∈ likes db → ∃ u, u ∈ users db ∧ UserDB.id u = LikeDB.user_id l).

(** * Properties *)

(** ** Queries *)

Section queries.
Context {A : Type} (P : A → Prop) `{!∀ x, Decision (P x)}.

Lemma first_filter_by_None (rows : list A) :
  first (filter_by P rows) = None ↔ ∀ x, x ∈ rows → ¬ P x.
Proof.
  unfold first, filter_by. rewrite head_None. split.
  - intros Hnil x Hx HP. by eapply filter_nil_not_elem_of.
  - intros Hall. induction rows as [|y rows IH]; [done|].
    rewrite filter_cons_False; [|apply Hall; left].
    apply IH. intros x Hx. apply Hall. by right.
Qed.

Lemma first_filter_by_Some (rows : list A) (x : A) :
  first (filter_by P rows) = Some x → x ∈ rows ∧ P x.
Proof.
  unfold first, filter_by. intros Hhd.
  apply head_Some_elem_of, list_elem_of_filter in Hhd. tauto.
Qed.

Lemma first_filter_by_is_Some (rows : list A) (x : A) :
  x ∈ rows → P x → is_Some (first (filter_by P rows)).
Proof.
  intros Hx HP. destruct (first (filter_by P rows)) eqn:E; [by eexists|].
  rewrite first_filter_by_None in E. by destruct (E x Hx).
Qed.

Lemma filter_by_nil (rows : list A) :
  filter_by P rows = [] ↔ ∀ x, x ∈ rows → ¬ P x.
Proof. rewrite <- first_filter_by_None. unfold first. by rewrite head_None. Qed.
End queries.

(** A key that occurs once selects its row. *)
Lemma first_filter_by_key {A K} `{EqDecision K} (key : A → K) (rows : list A) (x : A) :
  NoDup (key <$> rows) → x ∈ rows →
  first (filter_by (λ y, key y = key x) rows) = Some x.
Proof.
  intros Hnd Hx.
  destruct (first_filter_by_is_Some (λ y, key y = key x) rows x Hx eq_refl) as [y Hy].
  rewrite Hy. f_equal.
  apply first_filter_by_Some in Hy as [Hy Hk].
  apply list_elem_of_lookup in Hx as [i Hi], Hy as [j Hj].
  assert (i = j) as ->; [|congruence].
  eapply NoDup_lookup; [exact Hnd| |]; rewrite list_lookup_fmap.
  - by rewrite Hi.
  - rewrite Hj. simpl. by rewrite Hk.
Qed.

Lemma count_filter_by_key {A K} `{EqDecision K} (key : A → K) (rows : list A) (k : K) :
  NoDup (key <$> rows) → (count (filter_by (λ y, key y = k) rows) ≤ 1)%nat.
Proof.
  unfold count, filter_by. induction rows as [|y rows IH]; simpl; [lia|].
  rewrite NoDup_cons. intros [Hy Hnd]. rewrite filter_cons.
  destruct (decide (key y = k)) as [<-|]; [|by apply IH].
  assert (filter (λ z, key z = key y) rows = []) as ->; [|simpl; lia].
  apply (filter_by_nil (λ z, key z = key y)). intros z Hz Hk.
  apply Hy. rewrite <- Hk. by apply list_elem_of_fmap_2.
Qed.

(** ** Strings *)

Lemma split_not_nil (sep : ascii) (s : string) : split sep s ≠ [].
Proof. induction s as [|c s IH]; simpl; [done|]. destruct (Ascii.eqb c sep), (split sep s); done. Qed.

(** A string without the separator is a single piece. *)
Lemma split_no_sep (sep : ascii) (s : string) :
  index 0 (String sep EmptyString) s = None → split sep s = [s].
Proof.
  induction s as [|c s IH]; [done|]. simpl.
  destruct (Ascii.eqb_spec c sep) as [->|Hne].
  - destruct (ascii_dec sep sep); [|done]. by destruct s.
  - destruct (ascii_dec sep c) as [->|_]; [done|].
    destruct (index 0 (String sep "") s) eqn:E; [done|].
    intros _. by rewrite IH.
Qed.

(** The token of a well-formed header is the text between the first two
    spaces. *)
Lemma split_Bearer (rest : string) :
  split " " ("Bearer " ++ rest) !! 1%nat = head (split " " rest).
Proof.
  change ("Bearer " ++ rest) with (String "B" (String "e" (String "a" (String "r"
    (String "e" (String "r" (String " " rest))))))).
  simpl. by destruct (split " " rest).
Qed.

Lemma prefix_append (p s : string) :
  String.prefix p s = true → ∃ rest, s = p ++ rest.
Proof.
  revert s. induction p as [|c p IH]; intros s Hp.
  - by exists s.
  - destruct s as [|d s]; [done|]. simpl in Hp.
    destruct (ascii_dec c d) as [->|]; [|done].
    destruct (IH s Hp) as [rest ->]. by exists rest.
Qed.

Lemma startswith_Bearer (a : string) :
  startswith a "Bearer " = true → ∃ rest, a = "Bearer " ++ rest.
Proof. apply prefix_append. Qed.

Lemma startswith_append (p rest : string) : startswith (p ++ rest) p = true.
Proof.
  unfold startswith. induction p as [|c p IH]; simpl; [by destruct rest|].
  by destruct (ascii_dec c c).
Qed.

Lemma getitem_split_Bearer (a : string) :
  startswith a "Bearer " = true →
  ∃ token, getitem (split " " a) 1 = Ok token.
Proof.
  intros [rest ->]%startswith_Bearer. unfold getitem. rewrite split_Bearer.
  destruct (split " " rest) eqn:E; [by apply split_not_nil in E|]. by eexists.
Qed.

(** ** The table constraints as an invariant *)

Lemma NoDup_fmap_filter {A K} (key : A → K) (P : A → Prop) `{!∀ x, Decision (P x)}
    (rows : list A) :
  NoDup (key <$> rows) → NoDup (key <$> filter P rows).
Proof.
  intros Hnd. eapply sublist_NoDup; [exact Hnd|].
  apply fmap_sublist, sublist_filter.
Qed.

Lemma filter_by_like_key (uid pid : string) (rows : list LikeDB.t) :
  filter_by (λ l, LikeDB.user_id l = uid ∧ LikeDB.post_id l = pid) rows
  = filter_by (λ l, like_key l = (uid, pid)) rows.
Proof.
  unfold filter_by. apply list_filter_iff. intros l. unfold like_key.
  split; [intros [-> ->]; done | intros [= -> ->]; done].
Qed.

Lemma next_like_id_above (rows : list LikeDB.t) (l : LikeDB.t) :
  l ∈ rows → (LikeDB.id l < next_like_id rows)%Z.
Proof.
  unfold next_like_id. induction rows as [|k rows IH]; simpl.
  - by intros ?%elem_of_nil.
  - set (m := foldr Z.max 0 _) in *.
    pose proof (Z.le_max_l (LikeDB.id k) m). pose proof (Z.le_max_r (LikeDB.id k) m).
    intros [->|Hl]%elem_of_cons; [lia|]. specialize (IH Hl). lia.
Qed.

Lemma next_like_id_fresh (rows : list LikeDB.t) :
  next_like_id rows ∉ LikeDB.id <$> rows.
Proof.
  intros (l & Hid & Hl)%list_elem_of_fmap.
  apply next_like_id_above in Hl. lia.
Qed.

Lemma on_startup_empty : on_startup empty_db = Ok seeded_db.
Proof. reflexivity. Qed.

Lemma on_startup_seeded (db : Db) :
  users db = seeded_users → on_startup db = Ok db.
Proof. destruct db as [us ps ls]. simpl. by intros ->. Qed.

Lemma seeded_db_ok : db_ok seeded_db.
Proof.
  split; simpl; try apply NoDup_nil_2; [done|].
  by intros l ?%elem_of_nil.
Qed.

Lemma create_post_ok post_data current_user uuid4 now db :
  db_ok db → db_ok (create_post post_data current_user uuid4 now db).2.
Proof.
  intros [Hu Hp Hi Hk Ho]. unfold create_post, insert_post, commit_or_rollback. simpl.
  case_bool_decide as Hin; simpl; [done|].
  split; simpl; try done.
  - rewrite fmap_app. apply NoDup_app. split_and!; [done| |apply NoDup_singleton].
    intros x Hx ->%list_elem_of_singleton. done.
  - intros l Hl. rewrite fmap_app, elem_of_app. left. by apply Ho.
Qed.

Lemma delete_post_ok post_id current_user db :
  db_ok db → db_ok (delete_post post_id current_user db).2.
Proof.
  intros Hok. unfold delete_post.
  destruct (first _) as [post|] eqn:Hpost; [|done].
  case_bool_decide; [done|].
  unfold delete_post_row, commit_or_rollback. simpl.
  destruct (filter_by _ (likes db)) eqn:Hlikes; [|done]. simpl.
  destruct Hok as [Hu Hp Hi Hk Ho]. split; simpl; try done.
  - by apply NoDup_fmap_filter.
  - intros l Hl. pose proof (Ho l Hl) as (q & Hq & Hin)%list_elem_of_fmap.
    apply list_elem_of_fmap. exists q. split; [done|].
    apply list_elem_of_filter. split; [|done].
    intros Heq. apply (proj1 (filter_by_nil _ _) Hlikes l Hl). congruence.
Qed.

Lemma like_post_ok post_id current_user db :
  db_ok db → db_ok (like_post post_id current_user db).2.
Proof.
  intros Hok. unfold like_post, like_post_reads.
  destruct (first _) as [post|] eqn:Hpost; [|done].
  destruct (first (filter_by _ (likes db))) as [like|] eqn:Hlike; [done|].
  unfold like_post_commit, insert_like, commit_or_rollback. simpl.
  destruct (filter_by _ (likes db)) eqn:Hnone; [|done]. simpl.
  destruct Hok as [Hu Hp Hi Hk Ho]. split; simpl; try done.
  - rewrite fmap_app. apply NoDup_app. split_and!; [done| |apply NoDup_singleton].
    intros x Hx ->%list_elem_of_singleton. by apply next_like_id_fresh in Hx.
  - rewrite fmap_app. apply NoDup_app. split_and!; [done| |apply NoDup_singleton].
    intros x (l & -> & Hl)%list_elem_of_fmap [=]%list_elem_of_singleton.
    by apply (proj1 (filter_by_nil _ _) Hnone l Hl).
  - intros l [Hl| ->%list_elem_of_singleton]%elem_of_app; [by apply Ho|]. simpl.
    apply first_filter_by_Some in Hpost as [Hin <-]. by apply list_elem_of_fmap_2.
Qed.

Lemma unlike_post_ok post_id current_user db :
  db_ok db → db_ok (unlike_post post_id current_user db).2.
Proof.
  intros Hok. unfold unlike_post.
  destruct (first _) as [like|]; [|done]. simpl.
  destruct Hok as [Hu Hp Hi Hk Ho]. split; simpl; try done.
  - by apply NoDup_fmap_filter.
  - by apply NoDup_fmap_filter.
  - intros l [_ Hl]%list_elem_of_filter. by apply Ho.
Qed.

Lemma with_current_user_ok {A} authorization db (handler : User.t → Db → result A * Db) :
  (∀ current_user, db_ok db → db_ok (handler current_user db).2) →
  db_ok db → db_ok (with_current_user authorization db handler).2.
Proof.
  intros Hh Hok. unfold with_current_user.
  destruct (Depends_get_current_user authorization db); [by apply Hh|done].
Qed.

Lemma serve_ok req db : db_ok db → db_ok (serve req db).2.
Proof.
  intros Hok. destruct req; simpl; try done.
  - destruct (with_current_user _ _ _) as [r db'] eqn:E.
    change db' with (r, db').2. rewrite <- E.
    apply with_current_user_ok; [|done]. intros current_user _.
    destruct (parse_PostCreate body); [by apply create_post_ok|done].
  - destruct (with_current_user _ _ _) as [r db'] eqn:E.
    change db' with (r, db').2. rewrite <- E.
    apply with_current_user_ok; [|done]. intros ? ?. by apply delete_post_ok.
  - destruct (with_current_user _ _ _) as [r db'] eqn:E.
    change db' with (r, db').2. rewrite <- E.
    apply with_current_user_ok; [|done]. intros ? ?. by apply like_post_ok.
  - destruct (with_current_user _ _ _) as [r db'] eqn:E.
    change db' with (r, db').2. rewrite <- E.
    apply with_current_user_ok; [|done]. intros ? ?. by apply unlike_post_ok.
Qed.

Lemma reachable_ok db : reachable db → db_ok db.
Proof.
  induction 1 as [db Hstart|db db' _ IH Hstart|req db _ IH].
  - rewrite on_startup_empty in Hstart. injection Hstart as <-. apply seeded_db_ok.
  - rewrite on_startup_seeded in Hstart by apply IH. by injection Hstart as <-.
  - by apply serve_ok.
Qed.

(** ** Login and the bearer token *)

Lemma seeded_usernames_NoDup : NoDup (UserDB.username <$> seeded_users).
Proof. by apply (bool_decide_unpack _). Qed.

Lemma login_matching form_data db u :
  NoDup (UserDB.username <$> users db) → u ∈ users db →
  form_data !! "username" = Some (UserDB.username u) →
  form_data !! "password" = Some (UserDB.password u) →
  login form_data db = Ok (Token.Build (UserDB.username u) "bearer" (User.from_orm u)).
Proof.
  intros Hnd Hin Hname Hpw. unfold login. rewrite Hname, Hpw.
  rewrite (first_filter_by_key UserDB.username) by done.
  by rewrite bool_decide_eq_false_2 by (intros Hne; by apply Hne).
Qed.

Lemma login_unknown form_data db :
  (∀ u, u ∈ users db → form_data !! "username" ≠ Some (UserDB.username u)) →
  login form_data db = Raise bad_credentials.
Proof.
  intros Hnone. unfold login.
  destruct (form_data !! "username") as [name|] eqn:Hname; [|done].
  destruct (first _) as [u|] eqn:Hfirst; [|done].
  apply first_filter_by_Some in Hfirst as [Hin Heq].
  destruct (Hnone u Hin). by rewrite Heq.
Qed.

Lemma login_wrong_password form_data db u :
  NoDup (UserDB.username <$> users db) → u ∈ users db →
  form_data !! "username" = Some (UserDB.username u) →
  form_data !! "password" ≠ Some (UserDB.password u) →
  login form_data db = Raise bad_credentials.
Proof.
  intros Hnd Hin Hname Hpw. unfold login. rewrite Hname.
  rewrite (first_filter_by_key UserDB.username) by done.
  by rewrite bool_decide_eq_true_2 by (intros Heq; by apply Hpw).
Qed.

Lemma get_current_user_Bearer db u :
  NoDup (UserDB.username <$> users db) → u ∈ users db →
  index 0 " " (UserDB.username u) = None →
  get_current_user ("Bearer " ++ UserDB.username u) db = Ok (User.from_orm u).
Proof.
  intros Hnd Hin Hsp. unfold get_current_user.
  rewrite startswith_append. simpl negb.
  unfold getitem. rewrite split_Bearer, (split_no_sep " ") by done. simpl.
  by rewrite (first_filter_by_key UserDB.username) by done.
Qed.

(** C1: on a database the service can reach, a login with the name and the
    exact password of a seeded user succeeds, its access token is the user
    name, and that token sent as [Bearer <token>] to a route that requires a
    caller resolves to the same id and name; a login whose name no user has,
    or whose password differs from the stored one, raises 401. *)
Theorem login_token_roundtrip (db : Db) (Hreach : reachable db) :
  (∀ form_data u,
      u ∈ values FAKE_USERS_DB →
      form_data !! "username" = Some (UserDB.username u) →
      form_data !! "password" = Some (UserDB.password u) →
      ∃ tok, login form_data db = Ok tok
        ∧ Token.access_token tok = UserDB.username u
        ∧ Token.user tok = User.Build (UserDB.id u) (UserDB.username u)
        ∧ Depends_get_current_user (Some ("Bearer " ++ Token.access_token tok)) db
          = Ok (Token.user tok))
  ∧ (∀ form_data,
      (∀ u, u ∈ users db → form_data !! "username" ≠ Some (UserDB.username u)) →
      login form_data db = Raise bad_credentials
      ∧ status_of 200 (login form_data db) = 401)
  ∧ (∀ form_data u,
      u ∈ users db →
      form_data !! "username" = Some (UserDB.username u) →
      form_data !! "password" ≠ Some (UserDB.password u) →
      login form_data db = Raise bad_credentials
      ∧ status_of 200 (login form_data db) = 401).
Proof.
  pose proof (ok_users db (reachable_ok db Hreach)) as Husers.
  assert (NoDup (UserDB.username <$> users db)) as Hnd
    by (rewrite Husers; apply seeded_usernames_NoDup).
  split_and!.
  - intros form_data u Hu Hname Hpw.
    assert (index 0 " " (UserDB.username u) = None) as Hsp.
    { revert Hu. unfold values, FAKE_USERS_DB. simpl.
      rewrite !elem_of_cons, elem_of_nil. by intros [->|[->|[]]]. }
    change (values FAKE_USERS_DB) with seeded_users in Hu. rewrite <- Husers in Hu.
    eexists. split; [by apply login_matching|]. simpl. split_and!; [done..|].
    by apply get_current_user_Bearer.
  - intros form_data Hnone. by rewrite login_unknown.
  - intros form_data u Hin Hname Hpw. by rewrite (login_wrong_password _ _ u).
Qed.

Lemma reachable_seeded_db : reachable seeded_db.
Proof. apply reachable_startup, on_startup_empty. Defined.

Lemma login_token_roundtrip_witness :
  (∃ tok, login {[ "username" := "user1"; "password" := "password1" ]} seeded_db = Ok tok
     ∧ Token.access_token tok = "user1"
     ∧ Token.user tok = user1
     ∧ Depends_get_current_user (Some ("Bearer " ++ Token.access_token tok)) seeded_db
       = Ok (Token.user tok))
  ∧ status_of 200 (login {[ "username" := "user3"; "password" := "password1" ]} seeded_db) = 401
  ∧ status_of 200 (login {[ "username" := "user1"; "password" := "Password1" ]} seeded_db) = 401.
Proof.
  destruct (login_token_roundtrip seeded_db reachable_seeded_db) as (Hok & Hname & Hpw).
  split_and!.
  - apply (Hok _ (UserDB.Build "1" "user1" "password1")); [|done..].
    unfold values, FAKE_USERS_DB. simpl. apply elem_of_cons. by left.
  - apply Hname. intros u Hu. revert Hu. unfold seeded_db, seeded_users, values. simpl.
    rewrite !elem_of_cons, elem_of_nil. by intros [->|[->|[]]].
  - apply (Hpw _ (UserDB.Build "1" "user1" "password1")); [|done..].
    unfold seeded_db, seeded_users, values. simpl. apply elem_of_cons. by left.
Defined.

(** ** Likes *)

(** The requests that lead from the seeded database to [liked_db]. *)
Lemma reachable_liked_db : reachable liked_db.
Proof.
  pose (r1 := POST_posts (Some "Bearer user1") {[ "text" := "hello" ]} "p1" 100).
  pose (r2 := POST_posts (Some "Bearer user2") {[ "text" := "world" ]} "p2" 200).
  pose (r3 := POST_like "p1" (Some "Bearer user2")).
  assert (liked_db = (serve r3 (serve r2 (serve r1 seeded_db).2).2).2) as ->
    by (vm_compute; reflexivity).
  do 3 apply reachable_serve. apply reachable_seeded_db.
Qed.

Lemma like_keys_count db uid pid :
  NoDup (like_key <$> likes db) →
  (count (filter_by (λ l, LikeDB.user_id l = uid ∧ LikeDB.post_id l = pid) (likes db)) ≤ 1)%nat.
Proof. intros Hnd. rewrite filter_by_like_key. by apply count_filter_by_key. Qed.

(** C2: [like_post] raises 404 when no post has the id; raises 400 and
    leaves the database alone when the caller already has a like on the
    post; otherwise it adds one like row for (caller, post) and answers 201.
    On every database the service reaches, a (user, post) pair has at most
    one like row, so a user adds at most one to a post's likes_count. *)
Theorem like_post_spec (post_id : string) (current_user : User.t) (db : Db) :
  ((∀ p, p ∈ posts db → PostDB.id p ≠ post_id) →
     like_post post_id current_user db = (Raise post_not_found, db)
     ∧ exn_status post_not_found = 404)
  ∧ (∀ p l, p ∈ posts db → PostDB.id p = post_id →
       l ∈ likes db → LikeDB.user_id l = User.id current_user → LikeDB.post_id l = post_id →
       like_post post_id current_user db = (Raise already_liked, db)
       ∧ exn_status already_liked = 400)
  ∧ (∀ p, p ∈ posts db → PostDB.id p = post_id →
       (∀ l, l ∈ likes db →
          ¬ (LikeDB.user_id l = User.id current_user ∧ LikeDB.post_id l = post_id)) →
       ∃ new_like,
         like_post post_id current_user db
         = (Ok "Liked", mkDb (users db) (posts db) (likes db ++ [new_like]))
         ∧ LikeDB.user_id new_like = User.id current_user
         ∧ LikeDB.post_id new_like = post_id
         ∧ status_of 201 (like_post post_id current_user db).1 = 201)
  ∧ (reachable db →
       ∀ uid pid,
         (count (filter_by (λ l, LikeDB.user_id l = uid ∧ LikeDB.post_id l = pid)
                           (likes db)) ≤ 1)%nat).
Proof.
  split_and!.
  - intros Hnone. split; [|done]. unfold like_post, like_post_reads.
    by rewrite (proj2 (first_filter_by_None _ _)) by (intros p Hp; by apply Hnone).
  - intros p l Hp Hid Hl Huid Hpid. split; [|done]. unfold like_post, like_post_reads.
    destruct (first_filter_by_is_Some (λ q, PostDB.id q = post_id) _ p Hp Hid) as [q ->].
    by destruct (first_filter_by_is_Some
      (λ k, LikeDB.user_id k = User.id current_user ∧ LikeDB.post_id k = post_id)
      _ l Hl (conj Huid Hpid)) as [k ->].
  - intros p Hp Hid Hnone. eexists. unfold like_post, like_post_reads.
    destruct (first_filter_by_is_Some (λ q, PostDB.id q = post_id) _ p Hp Hid) as [q ->].
    rewrite (proj2 (first_filter_by_None _ _) Hnone).
    unfold like_post_commit, insert_like. simpl.
    by rewrite (proj2 (filter_by_nil _ _) Hnone).
  - intros Hreach uid pid. apply like_keys_count, ok_like_keys, reachable_ok, Hreach.
Qed.

Lemma like_post_spec_witness :
  like_post "p9" user1 liked_db = (Raise post_not_found, liked_db)
  ∧ like_post "p1" user2 liked_db = (Raise already_liked, liked_db)
  ∧ (∃ new_like,
       like_post "p1" user1 liked_db
       = (Ok "Liked", mkDb (users liked_db) (posts liked_db) (likes liked_db ++ [new_like]))
       ∧ LikeDB.user_id new_like = "1" ∧ LikeDB.post_id new_like = "p1")
  ∧ (count (filter_by (λ l, LikeDB.user_id l = "2" ∧ LikeDB.post_id l = "p1")
                      (likes liked_db)) ≤ 1)%nat.
Proof.
  split_and!.
  - apply (like_post_spec "p9" user1 liked_db). intros p. simpl.
    rewrite !elem_of_cons, elem_of_nil. by intros [->|[->|[]]].
  - destruct (like_post_spec "p1" user2 liked_db) as (_ & H400 & _).
    apply (H400 hello (LikeDB.Build 1 "2" "p1")); try done; simpl;
      apply elem_of_cons; by left.
  - destruct (like_post_spec "p1" user1 liked_db) as (_ & _ & H201 & _).
    destruct (H201 hello) as (new_like & Heq & Hu & Hp & _); [by left|done| |by eauto].
    intros l. simpl. rewrite elem_of_cons, elem_of_nil. by intros [->|[]] [? ?].
  - destruct (like_post_spec "p1" user2 liked_db) as (_ & _ & _ & Hinv).
    apply Hinv, reachable_liked_db.
Defined.

(** Deleting by a key that occurs once removes one row and keeps the rest. *)
Lemma filter_all {A} (P : A → Prop) `{!∀ x, Decision (P x)} (rows : list A) :
  (∀ x, x ∈ rows → P x) → filter P rows = rows.
Proof.
  induction rows as [|y rows IH]; intros Hall; [done|].
  rewrite filter_cons_True by (apply Hall; left).
  f_equal. apply IH. intros x Hx. apply Hall. by right.
Qed.

Lemma delete_by_key {A K} `{EqDecision K} (key : A → K) (rows : list A) (x : A) :
  NoDup (key <$> rows) → x ∈ rows →
  rows ≡ₚ x :: filter (λ y, key y ≠ key x) rows.
Proof.
  induction rows as [|y rows IH]; simpl; [by intros _ ?%elem_of_nil|].
  rewrite NoDup_cons. intros [Hy Hnd] [->|Hx]%elem_of_cons.
  - rewrite filter_cons_False by (intros Hne; by apply Hne).
    rewrite filter_all; [done|].
    intros z Hz Heq. apply Hy. rewrite <- Heq. by apply list_elem_of_fmap_2.
  - assert (key y ≠ key x) as Hne.
    { intros Heq. apply Hy. rewrite Heq. by apply list_elem_of_fmap_2. }
    rewrite filter_cons_True by done.
    rewrite (IH Hnd Hx) at 1. apply Permutation_swap.
Qed.

(** C5: [unlike_post] raises 404 when the caller has no like row on the
    post id; otherwise it deletes that row, and nothing else, and answers 204
    with an empty body.  The posts table plays no part in the outcome. *)
Theorem unlike_post_spec (post_id : string) (current_user : User.t) (db : Db)
    (Hids : NoDup (LikeDB.id <$> likes db))
    (Hkeys : NoDup (like_key <$> likes db)) :
  ((∀ l, l ∈ likes db →
      ¬ (LikeDB.user_id l = User.id current_user ∧ LikeDB.post_id l = post_id)) →
     unlike_post post_id current_user db = (Raise like_not_found, db)
     ∧ exn_status like_not_found = 404)
  ∧ (∀ l, l ∈ likes db →
       LikeDB.user_id l = User.id current_user → LikeDB.post_id l = post_id →
       ∃ db',
         unlike_post post_id current_user db = (Ok (), db')
         ∧ status_of 204 (unlike_post post_id current_user db).1 = 204
         ∧ users db' = users db ∧ posts db' = posts db
         ∧ likes db ≡ₚ l :: likes db'
         ∧ l ∉ likes db')
  ∧ (∀ stored_posts,
       let db_other := mkDb (users db) stored_posts (likes db) in
       (unlike_post post_id current_user db_other).1 = (unlike_post post_id current_user db).1
       ∧ likes (unlike_post post_id current_user db_other).2
         = likes (unlike_post post_id current_user db).2).
Proof.
  split_and!.
  - intros Hnone. split; [|done]. unfold unlike_post.
    by rewrite (proj2 (first_filter_by_None _ _) Hnone).
  - intros l Hl Huid Hpid. unfold unlike_post.
    rewrite filter_by_like_key.
    replace (User.id current_user, post_id) with (like_key l)
      by (unfold like_key; congruence).
    rewrite (first_filter_by_key like_key) by done.
    eexists. split_and!; try done; simpl.
    + by apply delete_by_key.
    + intros [Hne _]%list_elem_of_filter. by apply Hne.
  - intros stored_posts. unfold unlike_post. simpl.
    by destruct (first _).
Qed.

Lemma unlike_post_spec_witness :
  unlike_post "p1" user1 liked_db = (Raise like_not_found, liked_db)
  ∧ (∃ db', unlike_post "p1" user2 liked_db = (Ok (), db')
       ∧ posts db' = posts liked_db
       ∧ LikeDB.Build 1 "2" "p1" ∉ likes db')
  ∧ (unlike_post "p1" user2 (mkDb (users liked_db) [] (likes liked_db))).1 = Ok ().
Proof.
  assert (NoDup (LikeDB.id <$> likes liked_db)) as Hids by by apply (bool_decide_unpack _).
  assert (NoDup (like_key <$> likes liked_db)) as Hkeys by by apply (bool_decide_unpack _).
  split_and!.
  - apply (unlike_post_spec "p1" user1 liked_db Hids Hkeys).
    intros l. simpl. rewrite elem_of_cons, elem_of_nil. by intros [->|[]] [? ?].
  - destruct (unlike_post_spec "p1" user2 liked_db Hids Hkeys) as (_ & Hdel & _).
    destruct (Hdel (LikeDB.Build 1 "2" "p1")) as (db' & Heq & _ & _ & Hposts & _ & Hgone);
      [by left|done..|].
    by exists db'.
  - destruct (unlike_post_spec "p1" user2 liked_db Hids Hkeys) as (_ & _ & Hposts).
    by rewrite (proj1 (Hposts [])).
Defined.

(** ** Deleting posts *)

Lemma delete_post_not_found post_id current_user db :
  (∀ p, p ∈ posts db → PostDB.id p ≠ post_id) →
  delete_post post_id current_user db = (Raise post_not_found, db).
Proof.
  intros Hnone. unfold delete_post.
  by rewrite (proj2 (first_filter_by_None _ _)) by (intros p Hp; by apply Hnone).
Qed.

(** A caller who is not the owner gets 403; the database, and with it every
    later listing, is as before. *)
Lemma delete_post_forbidden post_id current_user db p :
  NoDup (PostDB.id <$> posts db) → p ∈ posts db → PostDB.id p = post_id →
  PostDB.owner_id p ≠ User.id current_user →
  delete_post post_id current_user db = (Raise not_owner, db)
  ∧ ∀ authorization,
      list_posts authorization (delete_post post_id current_user db).2
      = list_posts authorization db.
Proof.
  intros Hnd Hp <- Howner. unfold delete_post.
  rewrite (first_filter_by_key PostDB.id) by done.
  by rewrite bool_decide_eq_true_2.
Qed.

(** The owner's delete of a post that has no like removes the row. *)
Lemma delete_post_unliked post_id current_user db p :
  NoDup (PostDB.id <$> posts db) → p ∈ posts db → PostDB.id p = post_id →
  PostDB.owner_id p = User.id current_user →
  (∀ l, l ∈ likes db → LikeDB.post_id l ≠ post_id) →
  delete_post post_id current_user db
  = (Ok (), mkDb (users db) (filter (λ q, PostDB.id q ≠ post_id) (posts db)) (likes db)).
Proof.
  intros Hnd Hp <- Howner Hnone. unfold delete_post.
  rewrite (first_filter_by_key PostDB.id) by done.
  rewrite bool_decide_eq_false_2 by (intros Hne; by apply Hne).
  unfold delete_post_row. by rewrite (proj2 (filter_by_nil _ _) Hnone).
Qed.

(** The owner's delete of a post that has a like is refused by the commit:
    the request ends in 500 and the post stays. *)
Lemma delete_post_liked post_id current_user db p l :
  NoDup (PostDB.id <$> posts db) → p ∈ posts db → PostDB.id p = post_id →
  PostDB.owner_id p = User.id current_user →
  l ∈ likes db → LikeDB.post_id l = post_id →
  delete_post post_id current_user db = (Raise IntegrityError, db).
Proof.
  intros Hnd Hp <- Howner Hl Hpid. unfold delete_post.
  rewrite (first_filter_by_key PostDB.id) by done.
  rewrite bool_decide_eq_false_2 by (intros Hne; by apply Hne).
  unfold delete_post_row.
  destruct (filter_by _ (likes db)) eqn:E; [|done].
  by destruct (proj1 (filter_by_nil _ _) E l Hl).
Qed.

(** No outcome of [delete_post] touches the likes table. *)
Lemma delete_post_likes post_id current_user db :
  likes (delete_post post_id current_user db).2 = likes db.
Proof.
  unfold delete_post. destruct (first _) as [post|]; [|done].
  case_bool_decide; [done|]. unfold delete_post_row.
  by destruct (filter_by _ (likes db)).
Qed.

(** A delete that succeeds found no like on the post. *)
Lemma delete_post_Ok_unliked post_id current_user db db' :
  delete_post post_id current_user db = (Ok (), db') →
  ∀ l, l ∈ likes db → LikeDB.post_id l ≠ post_id.
Proof.
  unfold delete_post. destruct (first _) as [post|] eqn:Hpost; [|done].
  case_bool_decide; [done|]. unfold delete_post_row.
  destruct (filter_by _ (likes db)) eqn:E; [|done]. intros _ l Hl Hpid.
  apply first_filter_by_Some in Hpost as [_ Hid].
  apply (proj1 (filter_by_nil _ _) E l Hl). congruence.
Qed.

(** C3 (the code departs from it): the owner of a post that somebody liked
    asks for its deletion on a database the service reaches; the commit is
    refused, the answer is 500 instead of 204, and the post is still
    stored. *)
Theorem delete_liked_post_fails :
  reachable liked_db
  ∧ hello ∈ posts liked_db
  ∧ PostDB.owner_id hello = User.id user1
  ∧ Depends_get_current_user (Some "Bearer user1") liked_db = Ok user1
  ∧ delete_post "p1" user1 liked_db = (Raise IntegrityError, liked_db)
  ∧ serve (DELETE_post "p1" (Some "Bearer user1")) liked_db = (500, liked_db).
Proof.
  split_and!; try done.
  - apply reachable_liked_db.
  - by left.
Qed.


(** A delete that succeeds removes the post row and nothing else: the likes
    table after it is the likes table before it. *)
Theorem delete_post_keeps_likes (post_id : string) (current_user : User.t) (db db' : Db) :
  delete_post post_id current_user db = (Ok (), db') →
  likes db' = likes db
  ∧ users db' = users db
  ∧ posts db' = filter (λ q, PostDB.id q ≠ post_id) (posts db)
  ∧ ∀ l, l ∈ likes db → l ∈ likes db'.
Proof.
  intros Hdel.
  assert (likes db' = likes db) as Hlikes.
  { rewrite <- (delete_post_likes post_id current_user db). by rewrite Hdel. }
  split_and!; [done| | |by rewrite Hlikes].
  - revert Hdel. unfold delete_post. destruct (first _) as [post|]; [|done].
    case_bool_decide; [done|]. unfold delete_post_row.
    destruct (filter_by _ (likes db)); [|done]. simpl. by intros [= <-].
  - revert Hdel. unfold delete_post. destruct (first _) as [post|] eqn:Hpost; [|done].
    case_bool_decide; [done|]. unfold delete_post_row.
    destruct (filter_by _ (likes db)); [|done]. simpl. intros [= <-]. simpl.
    apply first_filter_by_Some in Hpost as [_ <-]. done.
Qed.

Lemma delete_post_keeps_likes_witness :
  likes (delete_post "p2" user2 liked_db).2 = likes liked_db
  ∧ LikeDB.Build 1 "2" "p1" ∈ likes (delete_post "p2" user2 liked_db).2.
Proof.
  destruct (delete_post_keeps_likes "p2" user2 liked_db (delete_post "p2" user2 liked_db).2)
    as (Hlikes & _ & _ & Hin); [by vm_compute|].
  split; [done|]. apply Hin. by left.
Defined.

(** ** Listings *)

#[global] Instance newer_first_trans : Transitive newer_first.
Proof. unfold newer_first. intros p q r ? ?. lia. Qed.
#[global] Instance newer_first_total : Total newer_first.
Proof. unfold newer_first. intros p q. lia. Qed.

Lemma insert_newer_first_Permutation p sorted :
  insert_newer_first p sorted ≡ₚ p :: sorted.
Proof.
  induction sorted as [|q rest IH]; simpl; [done|].
  destruct (decide (newer_first p q)); [done|].
  rewrite IH. apply Permutation_swap.
Qed.

Lemma order_by_timestamp_desc_Permutation rows :
  order_by_timestamp_desc rows ≡ₚ rows.
Proof.
  unfold order_by_timestamp_desc. induction rows as [|p rows IH]; simpl; [done|].
  by rewrite insert_newer_first_Permutation, IH.
Qed.

Lemma insert_newer_first_sorted p sorted :
  StronglySorted newer_first sorted →
  StronglySorted newer_first (insert_newer_first p sorted).
Proof.
  induction sorted as [|q rest IH]; simpl; intros Hsorted.
  - by repeat constructor.
  - destruct (decide (newer_first p q)) as [Hpq|Hqp].
    + constructor; [done|]. apply StronglySorted_inv in Hsorted as [_ Hall].
      constructor; [done|]. eapply Forall_impl; [exact Hall|].
      intros r Hqr. by transitivity q.
    + apply StronglySorted_inv in Hsorted as [Hrest Hall].
      constructor; [by apply IH|].
      rewrite insert_newer_first_Permutation. constructor; [|done].
      by destruct (total newer_first p q).
Qed.

Lemma order_by_timestamp_desc_sorted rows :
  StronglySorted newer_first (order_by_timestamp_desc rows).
Proof.
  unfold order_by_timestamp_desc. induction rows as [|p rows IH]; simpl.
  - constructor.
  - by apply insert_newer_first_sorted.
Qed.

Lemma with_likes_listing caller db stored :
  (∀ uid, caller = Some uid → uid ≠ "") →
  listing_of caller db stored (with_likes caller db <$> order_by_timestamp_desc stored).
Proof.
  intros Hcaller. split.
  - rewrite <- list_fmap_compose.
    rewrite (list_fmap_ext _ Post.from_orm) by done.
    by rewrite order_by_timestamp_desc_Permutation.
  - eapply StronglySorted_fmap; [|apply order_by_timestamp_desc_sorted].
    by intros p q Hpq.
  - by intros r (p & -> & _)%list_elem_of_fmap.
  - intros r (p & -> & _)%list_elem_of_fmap. simpl.
    destruct caller as [uid|]; [|split; [done|by intros (? & ? & ? & _)]].
    assert (truthy uid = true) as -> by (destruct uid; [by destruct (Hcaller "")|done]).
    rewrite bool_decide_eq_true. split.
    + intros Hsome. destruct (first _) as [l|] eqn:Hl; [|done].
      apply first_filter_by_Some in Hl as (Hl & Hpid & Huid). by exists uid, l.
    + intros (uid' & l & [= <-] & Hl & Huid & Hpid) Hnone.
      by apply (proj1 (first_filter_by_None _ _) Hnone l Hl).
  - by intros -> r (p & -> & _)%list_elem_of_fmap.
Qed.

(** The caller a listing resolves: none without a header, and otherwise only
    a stored user whose name is the token of the header. *)
Lemma optional_user_id_spec authorization db :
  ∃ caller,
    optional_user_id authorization db = Ok caller
    ∧ (authorization = None → caller = None)
    ∧ (∀ uid, caller = Some uid →
         ∃ a u, authorization = Some a ∧ startswith a "Bearer " = true
                ∧ split " " a !! 1%nat = Some (UserDB.username u)
                ∧ u ∈ users db ∧ UserDB.id u = uid).
Proof.
  unfold optional_user_id. destruct authorization as [a|]; [|by exists None].
  destruct (truthy a); simpl; [|by exists None].
  destruct (startswith a "Bearer ") eqn:Hpre; [|by exists None].
  destruct (getitem_split_Bearer a Hpre) as [token Htoken]. rewrite Htoken. simpl.
  destruct (first _) as [u|] eqn:Hu; [|by exists None].
  exists (Some (UserDB.id u)). split_and!; [done..|].
  intros uid [= <-]. exists a, u.
  apply first_filter_by_Some in Hu as [Hin ->].
  unfold getitem in Htoken. destruct (split " " a !! 1%nat); by simplify_eq.
Qed.

(** A header whose token is the name of a stored user resolves to that
    user. *)
Lemma optional_user_id_found a db u :
  NoDup (UserDB.username <$> users db) → u ∈ users db →
  startswith a "Bearer " = true →
  split " " a !! 1%nat = Some (UserDB.username u) →
  optional_user_id (Some a) db = Ok (Some (UserDB.id u)).
Proof.
  intros Hnd Hu Hpre Hsplit. unfold optional_user_id, getitem.
  destruct (startswith_Bearer a Hpre) as [rest ->].
  rewrite Hpre, Hsplit. simpl.
  by rewrite (first_filter_by_key UserDB.username) by done.
Qed.

(** Both hypotheses of the next theorem hold on every database the service
    reaches. *)
Lemma reachable_users db :
  reachable db →
  (∀ u, u ∈ users db → UserDB.id u ≠ "") ∧ NoDup (UserDB.username <$> users db).
Proof.
  intros Hreach. rewrite (ok_users db (reachable_ok db Hreach)). split.
  - intros u. unfold seeded_users, values. simpl.
    rewrite !elem_of_cons, elem_of_nil. by intros [->|[->|[]]].
  - apply seeded_usernames_NoDup.
Qed.

(** C4: both listings return the stored posts (all of them, or those the
    named user owns; 404 when nobody has the name), newest first, each with
    the number of like rows on it and with liked_by_me true exactly when the
    resolved caller has a like row on it; without a caller liked_by_me is
    false throughout.  The resolved caller is the stored user named by the
    token of a [Bearer ] header: every such header resolves to that user,
    and nothing else resolves to a caller. *)
Theorem list_posts_spec (authorization : option string) (db : Db)
    (Hids : ∀ u, u ∈ users db → UserDB.id u ≠ "")
    (Hnames : NoDup (UserDB.username <$> users db)) :
  ∃ caller,
    optional_user_id authorization db = Ok caller
    ∧ (authorization = None → caller = None)
    ∧ (∀ uid, caller = Some uid →
         ∃ a u, authorization = Some a ∧ startswith a "Bearer " = true
                ∧ split " " a !! 1%nat = Some (UserDB.username u)
                ∧ u ∈ users db ∧ UserDB.id u = uid)
    ∧ (∀ a u, authorization = Some a → startswith a "Bearer " = true →
         split " " a !! 1%nat = Some (UserDB.username u) → u ∈ users db →
         caller = Some (UserDB.id u))
    ∧ (∃ rows, list_posts authorization db = Ok rows
               ∧ listing_of caller db (posts db) rows)
    ∧ (∀ username,
         (∀ u, u ∈ users db → UserDB.username u ≠ username) →
         get_user_posts username authorization db = Raise user_not_found
         ∧ exn_status user_not_found = 404)
    ∧ (∀ user, user ∈ users db →
         ∃ rows, get_user_posts (UserDB.username user) authorization db = Ok rows
                 ∧ listing_of caller db
                     (filter (λ p, PostDB.owner_id p = UserDB.id user) (posts db)) rows).
Proof.
  destruct (optional_user_id_spec authorization db) as (caller & Hres & Hanon & Hcaller).
  assert (∀ uid, caller = Some uid → uid ≠ "") as Htruthy.
  { intros uid (a & u & _ & _ & _ & Hu & <-)%Hcaller. by apply Hids. }
  exists caller. split_and!; try done.
  - intros a u -> Hpre Hsplit Hu.
    rewrite (optional_user_id_found a db u) in Hres by done. by injection Hres.
  - eexists. unfold list_posts. rewrite Hres. simpl. split; [done|].
    by apply with_likes_listing.
  - intros username Hnone. split; [|done]. unfold get_user_posts.
    by rewrite (proj2 (first_filter_by_None _ _)) by (intros u Hu; by apply Hnone).
  - intros user Huser. eexists. unfold get_user_posts.
    rewrite (first_filter_by_key UserDB.username) by done.
    rewrite Hres. simpl. split; [done|]. by apply with_likes_listing.
Qed.

Lemma list_posts_spec_witness :
  ∃ rows,
    list_posts (Some "Bearer user2") liked_db = Ok rows
    ∧ listing_of (Some "2") liked_db (posts liked_db) rows
    ∧ (∀ r, r ∈ rows → PostWithLikes.id r = "p1" → PostWithLikes.liked_by_me r = true)
    ∧ get_user_posts "user3" (Some "Bearer user2") liked_db = Raise user_not_found.
Proof.
  assert (∀ u, u ∈ users liked_db → UserDB.id u ≠ "") as Hids.
  { intros u. unfold liked_db, seeded_users, values. simpl.
    rewrite !elem_of_cons, elem_of_nil. by intros [->|[->|[]]]. }
  destruct (list_posts_spec (Some "Bearer user2") liked_db Hids seeded_usernames_NoDup)
    as (caller & _ & _ & _ & Hfound & (rows & Hrows & Hlisting) & Hnone & _).
  assert (caller = Some "2") as ->.
  { apply (Hfound "Bearer user2" (UserDB.Build "2" "user2" "password2")); try done.
    unfold liked_db, seeded_users, values. simpl. apply elem_of_cons. right. by left. }
  exists rows. split_and!; [done..| |].
  - intros r Hr Hid. apply (listing_liked _ _ _ _ Hlisting r Hr).
    exists "2", (LikeDB.Build 1 "2" "p1"). rewrite Hid. split_and!; try done. by left.
  - apply Hnone. intros u. unfold liked_db, seeded_users, values. simpl.
    rewrite !elem_of_cons, elem_of_nil. by intros [->|[->|[]]].
Defined.

(** ** Who is calling *)

Lemma serve_caller_raises req db e :
  requires_caller req = true →
  Depends_get_current_user (authorization_of req) db = Raise e →
  serve req db = (exn_status e, db).
Proof.
  intros Hreq Hdep.
  destruct req; try done; simpl in *; unfold with_current_user; by rewrite Hdep.
Qed.

(** C6 as the specification states it is refuted: a request without the
    header is answered 422. *)
Lemma missing_header_is_not_401 :
  ¬ (∀ req db,
       requires_caller req = true →
       (authorization_of req = None
        ∨ ∃ a, authorization_of req = Some a ∧ startswith a "Bearer " = false) →
       (serve req db).1 = 401).
Proof.
  intros Hclaim.
  specialize (Hclaim (DELETE_post "p1" None) two_posts_db eq_refl (or_introl eq_refl)).
  by vm_compute in Hclaim.
Qed.

(** C6, amended: on the four routes that require a caller, a header that
    does not start with [Bearer ] is answered 401, and a request without the
    header is answered 422; neither changes the database. *)
Theorem caller_required (req : request) (db : Db) (Hreq : requires_caller req = true) :
  (authorization_of req = None → serve req db = (422, db))
  ∧ (∀ a, authorization_of req = Some a → startswith a "Bearer " = false →
       serve req db = (401, db)).
Proof.
  split.
  - intros Hnone. apply (serve_caller_raises _ _ RequestValidationError); [done|].
    by rewrite Hnone.
  - intros a Ha Hpre.
    apply (serve_caller_raises _ _ (HTTPException HTTP_401_UNAUTHORIZED "Invalid scheme"));
      [done|].
    rewrite Ha. simpl. unfold get_current_user. by rewrite Hpre.
Qed.

Lemma caller_required_witness :
  serve (POST_like "p1" None) two_posts_db = (422, two_posts_db)
  ∧ serve (POST_like "p1" (Some "bearer user1")) two_posts_db = (401, two_posts_db).
Proof.
  split.
  - by apply (caller_required (POST_like "p1" None) two_posts_db eq_refl).
  - by apply (caller_required (POST_like "p1" (Some "bearer user1")) two_posts_db eq_refl)
      with "bearer user1".
Defined.

(** C7 as the specification states it is refuted: a listing asked for with
    the token of no user is answered 200. *)
Lemma unknown_token_lists_anyway :
  ¬ (∀ req db rest,
       authorization_of req = Some ("Bearer " ++ rest) →
       (∀ u, u ∈ users db → UserDB.username u ≠ rest) →
       (serve req db).1 = 401).
Proof.
  intros Hclaim.
  specialize (Hclaim (GET_posts (Some "Bearer ghost")) two_posts_db "ghost" eq_refl).
  assert ((serve (GET_posts (Some "Bearer ghost")) two_posts_db).1 = 200) as H200
    by by vm_compute.
  rewrite Hclaim in H200; [done|].
  intros u. unfold two_posts_db, seeded_users, values. simpl.
  rewrite !elem_of_cons, elem_of_nil. by intros [->|[->|[]]].
Qed.

(** C7, amended: the token of a header that starts with [Bearer ] is its
    second space-separated field (the whole remainder when that has no
    space).  A stored user with that name is the caller.  When nobody has
    the name, the routes that require a caller answer 401 and change nothing,
    while the two listings answer as they do without the header: the caller
    is anonymous, liked_by_me is false in every row of either listing, and
    the answer is never 401. *)
Theorem bearer_token_lookup (a : string) (db : Db)
    (Hpre : startswith a "Bearer " = true) :
  ∃ token,
    split " " a !! 1%nat = Some token
    ∧ (∀ rest, a = "Bearer " ++ rest → index 0 " " rest = None → token = rest)
    ∧ (∀ u, NoDup (UserDB.username <$> users db) → u ∈ users db →
         UserDB.username u = token →
         get_current_user a db = Ok (User.from_orm u)
         ∧ optional_user_id (Some a) db = Ok (Some (UserDB.id u)))
    ∧ ((∀ u, u ∈ users db → UserDB.username u ≠ token) →
         (∀ req, requires_caller req = true → authorization_of req = Some a →
            serve req db = (401, db))
         ∧ optional_user_id (Some a) db = Ok None
         ∧ (serve (GET_posts (Some a)) db).1 = 200
         ∧ (∀ username, (serve (GET_user_posts username (Some a)) db).1 ≠ 401)
         ∧ (∃ rows, list_posts (Some a) db = Ok rows
                    ∧ ∀ r, r ∈ rows → PostWithLikes.liked_by_me r = false)
         ∧ list_posts (Some a) db = list_posts None db
         ∧ (∀ username,
              get_user_posts username (Some a) db = get_user_posts username None db)
         ∧ (∀ username rows,
              get_user_posts username (Some a) db = Ok rows →
              ∀ r, r ∈ rows → PostWithLikes.liked_by_me r = false)).
Proof.
  destruct (getitem_split_Bearer a Hpre) as [token Htoken].
  assert (split " " a !! 1%nat = Some token) as Hsplit.
  { unfold getitem in Htoken. destruct (split " " a !! 1%nat); by simplify_eq. }
  assert (truthy a = true) as Htruthy.
  { destruct (startswith_Bearer a Hpre) as [rest ->]. done. }
  exists token. split_and!; [done| | |].
  - intros rest -> Hsp. rewrite split_Bearer, (split_no_sep " ") in Hsplit by done.
    by injection Hsplit.
  - intros u Hnd Hu <-. unfold get_current_user, optional_user_id.
    rewrite Htruthy, Hpre, Htoken. simpl.
    by rewrite (first_filter_by_key UserDB.username) by done.
  - intros Hnone.
    assert (first (filter_by (λ u, UserDB.username u = token) (users db)) = None) as Hfirst.
    { apply first_filter_by_None. intros u Hu. by apply Hnone. }
    assert (optional_user_id (Some a) db = Ok None) as Hopt.
    { unfold optional_user_id. rewrite Htruthy, Hpre, Htoken. simpl. by rewrite Hfirst. }
    split_and!; [|done| | | | | |].
    + intros req Hreq Ha.
      apply (serve_caller_raises _ _ (HTTPException HTTP_401_UNAUTHORIZED "Invalid token"));
        [done|].
      rewrite Ha. simpl. unfold get_current_user. rewrite Hpre, Htoken. simpl.
      by rewrite Hfirst.
    + simpl. unfold list_posts. by rewrite Hopt.
    + intros username. cbn [serve]. unfold get_user_posts.
      destruct (first (filter_by (λ u, UserDB.username u = username) (users db)));
        [by rewrite Hopt|done].
    + eexists. unfold list_posts. rewrite Hopt. simpl. split; [done|].
      by intros r (p & -> & _)%list_elem_of_fmap.
    + unfold list_posts. by rewrite Hopt.
    + intros username. unfold get_user_posts.
      destruct (first (filter_by (λ u, UserDB.username u = username) (users db)));
        [by rewrite Hopt|done].
    + intros username rows. unfold get_user_posts.
      destruct (first (filter_by (λ u, UserDB.username u = username) (users db)));
        [|done].
      rewrite Hopt. simpl. intros [= <-]. by intros r (p & -> & _)%list_elem_of_fmap.
Qed.

Lemma bearer_token_lookup_witness :
  ∃ token,
    split " " "Bearer ghost" !! 1%nat = Some token
    ∧ token = "ghost"
    ∧ serve (DELETE_like "p1" (Some "Bearer ghost")) liked_db = (401, liked_db)
    ∧ (serve (GET_posts (Some "Bearer ghost")) liked_db).1 = 200
    ∧ get_user_posts "user1" (Some "Bearer ghost") liked_db
      = get_user_posts "user1" None liked_db
    ∧ ∀ rows, get_user_posts "user1" (Some "Bearer ghost") liked_db = Ok rows →
              ∀ r, r ∈ rows → PostWithLikes.liked_by_me r = false.
Proof.
  destruct (bearer_token_lookup "Bearer ghost" liked_db eq_refl)
    as (token & Hsplit & Hrest & _ & Hnone).
  assert (token = "ghost") as -> by by apply Hrest.
  destruct Hnone as (H401 & _ & H200 & _ & _ & _ & Hsame & Hfalse).
  { intros u. unfold liked_db, seeded_users, values. simpl.
    rewrite !elem_of_cons, elem_of_nil. by intros [->|[->|[]]]. }
  exists "ghost". split_and!; [done..| |done| |]; [by apply H401|apply Hsame|apply Hfalse].
Defined.

(** ** A like that loses the race *)

(** C8 as the specification states it is refuted: when the insert of the
    like row violates [_user_post_uc], the answer is 500, not 400. *)
Lemma unique_violation_is_not_400 :
  ¬ (∀ new_like db,
       insert_like new_like.1 new_like.2 db = Raise IntegrityError →
       status_of 201 (like_post_commit new_like db).1 = 400).
Proof.
  intros Hclaim. specialize (Hclaim ("2", "p1") liked_db eq_refl).
  by vm_compute in Hclaim.
Qed.

(** C8, amended: [like_post] does not catch the violation of
    [_user_post_uc]: the request ends in 500 and the database is unchanged.
    That is the fate of the second of two requests for the same like that
    both did their look-ups before either committed.  400 is answered only
    by the look-up of the handler itself, and a request that runs alone
    never meets the violation. *)
Theorem like_post_unique_violation :
  (∀ new_like db,
     insert_like new_like.1 new_like.2 db = Raise IntegrityError →
     like_post_commit new_like db = (Raise IntegrityError, db)
     ∧ status_of 201 (like_post_commit new_like db).1 = 500)
  ∧ (∀ post_id current_user db new_like,
       like_post_reads post_id current_user db = Ok new_like →
       let after_first := (like_post_commit new_like db).2 in
       (like_post_commit new_like db).1 = Ok "Liked"
       ∧ like_post_commit new_like after_first = (Raise IntegrityError, after_first))
  ∧ (∀ post_id current_user db,
       (like_post post_id current_user db).1 ≠ Raise IntegrityError
       ∧ ((like_post post_id current_user db).1 = Raise already_liked ↔
          like_post_reads post_id current_user db = Raise already_liked)).
Proof.
  split_and!.
  - intros new_like db Hins. unfold like_post_commit. by rewrite Hins.
  - intros post_id current_user db new_like Hreads.
    assert (new_like = (User.id current_user, post_id)
            ∧ filter_by (λ l, LikeDB.user_id l = User.id current_user
                              ∧ LikeDB.post_id l = post_id) (likes db) = [])
      as [-> Hnone].
    { revert Hreads. unfold like_post_reads.
      destruct (first _) as [post|]; [|done].
      destruct (first (filter_by _ (likes db))) as [like|] eqn:Hlike; [done|].
      intros [= <-]. split; [done|]. exact (proj1 (head_None _) Hlike). }
    unfold like_post_commit, insert_like. simpl. rewrite Hnone. simpl.
    split; [done|].
    unfold filter_by in *. rewrite filter_app, Hnone.
    by rewrite filter_cons_True by done.
  - intros post_id current_user db. unfold like_post.
    destruct (like_post_reads post_id current_user db) as [new_like|e] eqn:Hreads.
    + assert (like_post_commit new_like db
              = (Ok "Liked", (like_post_commit new_like db).2)) as ->; [|done].
      revert Hreads. unfold like_post_reads.
      destruct (first _) as [post|]; [|done].
      destruct (first (filter_by _ (likes db))) as [like|] eqn:Hlike; [done|].
      intros [= <-]. unfold like_post_commit, insert_like. simpl.
      by rewrite (proj1 (head_None _) Hlike).
    + simpl. split; [|split; congruence].
      revert Hreads. unfold like_post_reads.
      destruct (first _) as [post|]; [|by intros [= <-]].
      destruct (first (filter_by _ (likes db))); [by intros [= <-]|done].
Qed.

Lemma like_post_unique_violation_witness :
  like_post_commit ("2", "p1") liked_db = (Raise IntegrityError, liked_db)
  ∧ (like_post_commit ("2", "p1") two_posts_db).1 = Ok "Liked"
  ∧ like_post_commit ("2", "p1") (like_post_commit ("2", "p1") two_posts_db).2
    = (Raise IntegrityError, (like_post_commit ("2", "p1") two_posts_db).2).
Proof.
  destruct like_post_unique_violation as (Hviolation & Hrace & _).
  split.
  - by apply Hviolation.
  - by apply (Hrace "p1" user2 two_posts_db).
Defined.

(** ** The text of a post *)

(** C10 as the specification states it is refuted: the service reaches a
    database that stores a post whose text is empty. *)
Lemma empty_text_is_stored :
  ¬ (∀ db, reachable db → ∀ p, p ∈ posts db → PostDB.text p ≠ "").
Proof.
  intros Hclaim.
  pose (req := POST_posts (Some "Bearer user1") {[ "text" := "" ]} "p1" 100).
  apply (Hclaim (serve req seeded_db).2 (reachable_serve req _ reachable_seeded_db)
                (PostDB.Build "p1" "" 100 "1" "user1")); [|done].
  vm_compute. by left.
Qed.

(** C10, amended: [POST /api/posts] stores a post only when the body has a
    [text] field, whatever string it holds, the empty one included; for a
    resolved caller a body without [text] is answered 422 and stores
    nothing, and a body with [text] and a fresh id stores exactly that text
    and is answered 201. *)
Theorem create_post_requires_text (authorization : option string)
    (body : gmap string string) (uuid4 : string) (now : Z) (db : Db) :
  let req := POST_posts authorization body uuid4 now in
  (posts (serve req db).2 ≠ posts db →
     ∃ text current_user,
       body !! "text" = Some text
       ∧ Depends_get_current_user authorization db = Ok current_user
       ∧ serve req db
         = (201, mkDb (users db)
                      (posts db ++ [PostDB.Build uuid4 text now (User.id current_user)
                                                 (User.username current_user)])
                      (likes db)))
  ∧ (∀ current_user,
       Depends_get_current_user authorization db = Ok current_user →
       body !! "text" = None →
       serve req db = (422, db))
  ∧ (∀ current_user text,
       Depends_get_current_user authorization db = Ok current_user →
       body !! "text" = Some text →
       uuid4 ∉ PostDB.id <$> posts db →
       serve req db
       = (201, mkDb (users db)
                    (posts db ++ [PostDB.Build uuid4 text now (User.id current_user)
                                               (User.username current_user)])
                    (likes db))).
Proof.
  simpl. unfold with_current_user, parse_PostCreate, create_post, insert_post.
  split_and!.
  - destruct (Depends_get_current_user authorization db) as [current_user|]; [|done].
    destruct (body !! "text") as [text|]; [|done]. simpl.
    case_bool_decide; [done|]. intros _. by exists text, current_user.
  - intros current_user -> ->. done.
  - intros current_user text -> -> Hfresh. simpl.
    by rewrite bool_decide_eq_false_2.
Qed.

Lemma create_post_requires_text_witness :
  serve (POST_posts (Some "Bearer user1") ∅ "p3" 300) two_posts_db = (422, two_posts_db)
  ∧ serve (POST_posts (Some "Bearer user1") {[ "text" := "" ]} "p3" 300) two_posts_db
    = (201, mkDb seeded_users [hello; world; PostDB.Build "p3" "" 300 "1" "user1"] []).
Proof.
  split.
  - pose proof (create_post_requires_text (Some "Bearer user1") ∅ "p3" 300 two_posts_db)
      as (_ & H422 & _).
    by apply (H422 user1).
  - pose proof (create_post_requires_text (Some "Bearer user1") {[ "text" := "" ]} "p3" 300
                  two_posts_db) as (_ & _ & H201).
    apply (H201 user1 ""); [done..|].
    simpl. rewrite !elem_of_cons, elem_of_nil. by intros [?|[?|[]]].
Defined.

(** ** A worked scenario

    user1 posts "hello", user2 posts "world" and likes "hello"; the two then
    read the listing. *)

Example scenario_as_user1 :
  list_posts (Some "Bearer user1") liked_db
  = Ok [ PostWithLikes.Build "p2" "world" 200 "2" "user2" 0 false;
         PostWithLikes.Build "p1" "hello" 100 "1" "user1" 1 false ].
Proof. reflexivity. Qed.

Example scenario_as_user2 :
  list_posts (Some "Bearer user2") liked_db
  = Ok [ PostWithLikes.Build "p2" "world" 200 "2" "user2" 0 false;
         PostWithLikes.Build "p1" "hello" 100 "1" "user1" 1 true ].
Proof. reflexivity. Qed.

Example scenario_user_posts :
  get_user_posts "user1" None liked_db
  = Ok [ PostWithLikes.Build "p1" "hello" 100 "1" "user1" 1 false ].
Proof. reflexivity. Qed.

Example scenario_second_like :
  serve (POST_like "p1" (Some "Bearer user2")) liked_db = (400, liked_db).
Proof. reflexivity. Qed.

Example scenario_unlike_never_liked :
  serve (DELETE_like "p2" (Some "Bearer user1")) liked_db = (404, liked_db).
Proof. reflexivity. Qed.

Example scenario_delete_foreign_post :
  serve (DELETE_post "p2" (Some "Bearer user1")) liked_db = (403, liked_db).
Proof. reflexivity. Qed.

Example scenario_delete_own_unliked_post :
  serve (DELETE_post "p2" (Some "Bearer user2")) liked_db
  = (204, mkDb seeded_users [hello] [LikeDB.Build 1 "2" "p1"]).
Proof. reflexivity. Qed.

(** Posts with the same timestamp are listed in the order they were
    stored. *)
Example scenario_same_timestamp :
  order_by_timestamp_desc
    [ PostDB.Build "a" "one" 100 "1" "user1";
      PostDB.Build "b" "two" 100 "2" "user2";
      PostDB.Build "c" "three" 100 "1" "user1";
      PostDB.Build "d" "four" 200 "2" "user2" ]
  = [ PostDB.Build "d" "four" 200 "2" "user2";
      PostDB.Build "a" "one" 100 "1" "user1";
      PostDB.Build "b" "two" 100 "2" "user2";
      PostDB.Build "c" "three" 100 "1" "user1" ].
Proof. reflexivity. Qed.

Example scenario_login_without_body :
  serve (POST_login None) seeded_db = (422, seeded_db).
Proof. reflexivity. Qed.

Example scenario_token_with_trailing_field :
  get_current_user "Bearer user1 and more" seeded_db = Ok user1.
Proof. reflexivity. Qed.

(** * Further properties of the handlers *)

(** ** What the resolver and the login let through *)

(** No piece of a split contains the separator. *)
Lemma split_pieces_no_sep (sep : ascii) (s w : string) :
  w ∈ split sep s → index 0 (String sep EmptyString) w = None.
Proof.
  revert w. induction s as [|c s IH]; intros w; simpl.
  - by intros ->%list_elem_of_singleton.
  - destruct (Ascii.eqb_spec c sep) as [->|Hne].
    + intros [->|Hw]%elem_of_cons; [done|by apply IH].
    + destruct (split sep s) as [|w0 ws] eqn:E; [by apply split_not_nil in E|].
      intros [->|Hw]%elem_of_cons; [|apply IH; by right].
      simpl. destruct (ascii_dec sep c) as [->|_]; [done|].
      by rewrite (IH w0) by by left.
Qed.

(** [get_current_user] returns only stored users, found under the second
    field of a [Bearer ] header, a name that therefore has no space; all it
    ever raises is 401. *)
Theorem get_current_user_sound (authorization : string) (db : Db) :
  match get_current_user authorization db with
  | Ok user =>
      ∃ row token,
        row ∈ users db ∧ user = User.from_orm row
        ∧ startswith authorization "Bearer " = true
        ∧ split " " authorization !! 1%nat = Some token
        ∧ UserDB.username row = token
        ∧ index 0 " " token = None
  | Raise e => ∃ detail, e = HTTPException 401 detail
  end.
Proof.
  unfold get_current_user.
  destruct (startswith authorization "Bearer ") eqn:Hpre; simpl; [|by eexists].
  destruct (getitem_split_Bearer authorization Hpre) as [token Htoken].
  rewrite Htoken. simpl.
  assert (split " " authorization !! 1%nat = Some token) as Hsplit.
  { unfold getitem in Htoken. destruct (split " " authorization !! 1%nat); by simplify_eq. }
  destruct (first _) as [row|] eqn:Hrow; [|by eexists].
  apply first_filter_by_Some in Hrow as [Hin Hname].
  exists row, token. split_and!; try done.
  apply (split_pieces_no_sep " " authorization).
  by eapply list_elem_of_lookup_2.
Qed.

(** [login] succeeds only for a body whose two fields are the name and the
    password of one stored row, and then answers with that row; every other
    body, one without [username] or [password] included, is answered 401. *)
Theorem login_sound (form_data : gmap string string) (db : Db) :
  match login form_data db with
  | Ok tok =>
      ∃ row,
        row ∈ users db
        ∧ form_data !! "username" = Some (UserDB.username row)
        ∧ form_data !! "password" = Some (UserDB.password row)
        ∧ tok = Token.Build (UserDB.username row) "bearer" (User.from_orm row)
  | Raise e => e = bad_credentials
  end.
Proof.
  unfold login.
  destruct (form_data !! "username") as [name|] eqn:Hname; [|done].
  destruct (first _) as [row|] eqn:Hrow; [|done].
  apply first_filter_by_Some in Hrow as [Hin <-].
  case_bool_decide as Hpw; [done|].
  by exists row.
Qed.

(** ** A failed request stores nothing *)

Lemma commit_or_rollback_Raise {A} db (r : result (A * Db)) e :
  (commit_or_rollback db r).1 = Raise e → (commit_or_rollback db r).2 = db.
Proof. by destruct r as [[a db']|]. Qed.

Lemma with_current_user_Raise {A} authorization db
    (handler : User.t → Db → result A * Db) e :
  (∀ current_user e', (handler current_user db).1 = Raise e' →
     (handler current_user db).2 = db) →
  (with_current_user authorization db handler).1 = Raise e →
  (with_current_user authorization db handler).2 = db.
Proof.
  intros Hh. unfold with_current_user.
  destruct (Depends_get_current_user authorization db); [apply Hh|done].
Qed.

Lemma create_post_Raise post_data current_user uuid4 now db e :
  (create_post post_data current_user uuid4 now db).1 = Raise e →
  (create_post post_data current_user uuid4 now db).2 = db.
Proof. apply commit_or_rollback_Raise. Qed.

Lemma delete_post_Raise post_id current_user db e :
  (delete_post post_id current_user db).1 = Raise e →
  (delete_post post_id current_user db).2 = db.
Proof.
  unfold delete_post. destruct (first _); [|done].
  case_bool_decide; [done|]. apply commit_or_rollback_Raise.
Qed.

Lemma like_post_Raise post_id current_user db e :
  (like_post post_id current_user db).1 = Raise e →
  (like_post post_id current_user db).2 = db.
Proof.
  unfold like_post. destruct (like_post_reads _ _ _); [|done].
  apply commit_or_rollback_Raise.
Qed.

Lemma unlike_post_Raise post_id current_user db e :
  (unlike_post post_id current_user db).1 = Raise e →
  (unlike_post post_id current_user db).2 = db.
Proof. unfold unlike_post. by destruct (first _). Qed.

Lemma status_of_error {A} (default : Z) (r : result A) :
  (default < 400)%Z → (400 ≤ status_of default r)%Z → ∃ e, r = Raise e.
Proof. destruct r; simpl; [lia|by eexists]. Qed.

(** Whatever the route, a request answered with an error status (400 and
    above) leaves all three tables as they were, and no request at all
    changes the users table. *)
Theorem failed_request_stores_nothing (req : request) (db : Db) :
  ((400 ≤ (serve req db).1)%Z → (serve req db).2 = db)
  ∧ users (serve req db).2 = users db.
Proof.
  split.
  - destruct req; simpl; try done.
    + destruct (with_current_user _ _ _) as [r db'] eqn:E. simpl.
      intros [e ->]%status_of_error; [|done].
      change db' with (Raise (A:=Post.t) e, db').2. rewrite <- E.
      apply (with_current_user_Raise _ _ _ e); [|by rewrite E].
      intros current_user e'. destruct (parse_PostCreate body); [|done].
      apply create_post_Raise.
    + destruct (with_current_user _ _ _) as [r db'] eqn:E. simpl.
      intros [e ->]%status_of_error; [|done].
      change db' with (Raise (A:=unit) e, db').2. rewrite <- E.
      apply (with_current_user_Raise _ _ _ e); [|by rewrite E].
      intros ? ?. apply delete_post_Raise.
    + destruct (with_current_user _ _ _) as [r db'] eqn:E. simpl.
      intros [e ->]%status_of_error; [|done].
      change db' with (Raise (A:=string) e, db').2. rewrite <- E.
      apply (with_current_user_Raise _ _ _ e); [|by rewrite E].
      intros ? ?. apply like_post_Raise.
    + destruct (with_current_user _ _ _) as [r db'] eqn:E. simpl.
      intros [e ->]%status_of_error; [|done].
      change db' with (Raise (A:=unit) e, db').2. rewrite <- E.
      apply (with_current_user_Raise _ _ _ e); [|by rewrite E].
      intros ? ?. apply unlike_post_Raise.
  - destruct req; simpl; try done; unfold with_current_user;
      destruct (Depends_get_current_user _ _) as [current_user|]; try done.
    + destruct (parse_PostCreate body); [|done].
      unfold create_post, insert_post. simpl. by case_bool_decide.
    + unfold delete_post. destruct (first _); [|done].
      case_bool_decide; [done|]. unfold delete_post_row. simpl.
      by destruct (filter_by _ (likes db)).
    + unfold like_post. destruct (like_post_reads _ _ _); [|done].
      unfold like_post_commit, insert_like. simpl.
      by destruct (filter_by _ (likes db)).
    + unfold unlike_post. by destruct (first _).
Qed.

Lemma failed_request_stores_nothing_witness :
  (serve (DELETE_post "p1" (Some "Bearer user1")) liked_db).2 = liked_db.
Proof.
  apply (failed_request_stores_nothing (DELETE_post "p1" (Some "Bearer user1")) liked_db).
  by vm_compute.
Defined.

(** ** The statuses of a route *)

Lemma Depends_get_current_user_Raise authorization db e :
  Depends_get_current_user authorization db = Raise e →
  exn_status e = 401 ∨ exn_status e = 422.
Proof.
  destruct authorization as [a|]; simpl; [|intros [= <-]; by right].
  unfold get_current_user. destruct (startswith a "Bearer ") eqn:Hpre; simpl.
  - destruct (getitem_split_Bearer a Hpre) as [token ->]. simpl.
    destruct (first _); [done|]. intros [= <-]. by left.
  - intros [= <-]. by left.
Qed.

Lemma like_post_reads_Ok post_id current_user db new_like :
  like_post_reads post_id current_user db = Ok new_like →
  new_like = (User.id current_user, post_id)
  ∧ (∃ post, post ∈ posts db ∧ PostDB.id post = post_id)
  ∧ filter_by (λ l, LikeDB.user_id l = User.id current_user
                    ∧ LikeDB.post_id l = post_id) (likes db) = [].
Proof.
  unfold like_post_reads.
  destruct (first _) as [post|] eqn:Hpost; [|done].
  destruct (first (filter_by _ (likes db))) as [like|] eqn:Hlike; [done|].
  intros [= <-]. split_and!; [done| |exact (proj1 (head_None _) Hlike)].
  exists post. by apply first_filter_by_Some in Hpost.
Qed.

(** What [like_post] does when it succeeds. *)
Lemma like_post_Ok post_id current_user db message db' :
  like_post post_id current_user db = (Ok message, db') →
  db' = mkDb (users db) (posts db)
             (likes db ++ [LikeDB.Build (next_like_id (likes db))
                                        (User.id current_user) post_id])
  ∧ (∃ post, post ∈ posts db ∧ PostDB.id post = post_id)
  ∧ filter_by (λ l, LikeDB.user_id l = User.id current_user
                    ∧ LikeDB.post_id l = post_id) (likes db) = [].
Proof.
  unfold like_post.
  destruct (like_post_reads post_id current_user db) as [new_like|] eqn:Hreads; [|done].
  apply like_post_reads_Ok in Hreads as (-> & Hpost & Hnone).
  unfold like_post_commit, insert_like. simpl. rewrite Hnone. simpl.
  by intros [= _ <-].
Qed.

(** Every route answers with one of the statuses of its row in the table
    of [statuses]: a listing of all posts never fails, a login fails only
    with 401 or, without a well-formed body, with 422, and only the creation
    and the deletion of a post can end in 500. *)
Theorem serve_statuses (req : request) (db : Db) :
  (serve req db).1 ∈ statuses req.
Proof.
  destruct req; simpl.
  - destruct body as [form_data|]; simpl; [|set_solver].
    unfold login. destruct (form_data !! "username"); [|set_solver].
    destruct (first _); [|set_solver]. case_bool_decide; set_solver.
  - destruct (optional_user_id_spec authorization db) as (caller & Hres & _).
    unfold list_posts. rewrite Hres. set_solver.
  - unfold with_current_user.
    destruct (Depends_get_current_user authorization db) as [current_user|e] eqn:Hdep.
    + destruct (parse_PostCreate body) eqn:Hbody.
      * unfold create_post, insert_post. simpl. destruct (bool_decide _); set_solver.
      * revert Hbody. unfold parse_PostCreate. destruct (body !! "text"); [done|].
        intros [= <-]. set_solver.
    + simpl. destruct (Depends_get_current_user_Raise _ _ _ Hdep) as [-> | ->]; set_solver.
  - unfold with_current_user.
    destruct (Depends_get_current_user authorization db) as [current_user|e] eqn:Hdep.
    + unfold delete_post. destruct (first _); [|set_solver].
      case_bool_decide; [set_solver|]. unfold delete_post_row.
      destruct (filter_by _ (likes db)); set_solver.
    + simpl. destruct (Depends_get_current_user_Raise _ _ _ Hdep) as [-> | ->]; set_solver.
  - unfold with_current_user.
    destruct (Depends_get_current_user authorization db) as [current_user|e] eqn:Hdep.
    + unfold like_post, like_post_reads. destruct (first _); [|set_solver].
      destruct (first (filter_by _ (likes db))) eqn:Hlike; [set_solver|].
      unfold like_post_commit, insert_like. simpl.
      rewrite (proj1 (head_None _) Hlike). set_solver.
    + simpl. destruct (Depends_get_current_user_Raise _ _ _ Hdep) as [-> | ->]; set_solver.
  - unfold with_current_user.
    destruct (Depends_get_current_user authorization db) as [current_user|e] eqn:Hdep.
    + unfold unlike_post. destruct (first _); set_solver.
    + simpl. destruct (Depends_get_current_user_Raise _ _ _ Hdep) as [-> | ->]; set_solver.
  - unfold get_user_posts.
    destruct (first _); [|set_solver].
    destruct (optional_user_id_spec authorization db) as (caller & -> & _). set_solver.
Qed.

(** ** Likes and what the listing shows *)

(** While a like refers to a post, no request to delete the post changes
    anything, whoever asks: the post and its likes stay. *)
Theorem liked_post_survives_delete (post_id : string) (current_user : User.t) (db : Db)
    (l : LikeDB.t) :
  l ∈ likes db → LikeDB.post_id l = post_id →
  (delete_post post_id current_user db).2 = db
  ∧ ∃ e, (delete_post post_id current_user db).1 = Raise e.
Proof.
  intros Hl Hpid. unfold delete_post.
  destruct (first _) as [post|] eqn:Hpost; [|by eauto].
  case_bool_decide; [by eauto|].
  apply first_filter_by_Some in Hpost as [_ Hid].
  unfold delete_post_row.
  destruct (filter_by _ (likes db)) eqn:E; [|by eauto].
  destruct (proj1 (filter_by_nil _ _) E l Hl). congruence.
Qed.

Lemma liked_post_survives_delete_witness :
  (delete_post "p1" user1 liked_db).2 = liked_db
  ∧ (delete_post "p1" user2 liked_db).2 = liked_db.
Proof.
  split.
  - apply (liked_post_survives_delete "p1" user1 liked_db (LikeDB.Build 1 "2" "p1"));
      [by left|done].
  - apply (liked_post_survives_delete "p1" user2 liked_db (LikeDB.Build 1 "2" "p1"));
      [by left|done].
Defined.

(** A like that succeeded is undone by the caller's unlike: the database is
    again the one before the like. *)
Theorem like_then_unlike (post_id : string) (current_user : User.t) (db db' : Db)
    (message : string) :
  like_post post_id current_user db = (Ok message, db') →
  unlike_post post_id current_user db' = (Ok (), db).
Proof.
  intros (-> & _ & Hnone)%like_post_Ok. unfold unlike_post, delete_like_row. simpl.
  unfold filter_by in *. rewrite filter_app, Hnone, filter_cons_True by done. simpl.
  rewrite filter_app, filter_cons_False by (intros Hne; by apply Hne). simpl.
  rewrite app_nil_r, filter_all; [by destruct db|].
  intros k Hk Heq. apply next_like_id_above in Hk. lia.
Qed.

Lemma like_then_unlike_witness :
  unlike_post "p1" user1 (like_post "p1" user1 liked_db).2 = (Ok (), liked_db).
Proof. by apply (like_then_unlike "p1" user1 liked_db _ "Liked"). Defined.

Lemma with_likes_count viewer db post :
  PostWithLikes.likes_count (with_likes viewer db post)
  = length (filter (λ l, LikeDB.post_id l = PostDB.id post) (likes db)).
Proof. done. Qed.

(** [liked_by_me] is set exactly for a viewer with a non-empty id who has a
    like row on the post. *)
Lemma with_likes_liked viewer db post :
  PostWithLikes.liked_by_me (with_likes viewer db post) = true ↔
  ∃ uid l, viewer = Some uid ∧ uid ≠ "" ∧ l ∈ likes db
           ∧ LikeDB.post_id l = PostDB.id post ∧ LikeDB.user_id l = uid.
Proof.
  unfold with_likes. simpl. destruct viewer as [uid|]; [|split; [done|by intros (?&?&?&_)]].
  destruct uid as [|c uid]; simpl; [split; [done|by intros (?&?&[= <-]&?&_)]|].
  rewrite bool_decide_eq_true. split.
  - intros Hsome. destruct (first _) as [l|] eqn:Hl; [|done].
    apply first_filter_by_Some in Hl as (Hl & Hpid & Huid). by exists (String c uid), l.
  - intros (uid' & l & [= <-] & _ & Hl & Hpid & Huid) Hnone.
    by apply (proj1 (first_filter_by_None _ _) Hnone l Hl).
Qed.

Lemma bool_eq_true_iff (b c : bool) : (b = true ↔ c = true) → b = c.
Proof. destruct b, c; intros [H1 H2]; try done; [by rewrite H1|by rewrite H2]. Qed.

(** After a like that succeeded the posts are the same, the liked post
    counts one like more for every viewer and the others count what they
    did; the caller now sees liked_by_me on the post, and nothing else about
    liked_by_me changes. *)
Theorem like_post_shows (post_id : string) (current_user : User.t) (db db' : Db)
    (message : string) :
  like_post post_id current_user db = (Ok message, db') →
  posts db' = posts db
  ∧ ∀ viewer post,
      PostWithLikes.likes_count (with_likes viewer db' post)
      = (PostWithLikes.likes_count (with_likes viewer db post)
         + if decide (PostDB.id post = post_id) then 1 else 0)%nat
      ∧ (PostDB.id post = post_id → User.id current_user ≠ "" →
           PostWithLikes.liked_by_me
             (with_likes (Some (User.id current_user)) db' post) = true)
      ∧ (PostDB.id post ≠ post_id ∨ viewer ≠ Some (User.id current_user) →
           PostWithLikes.liked_by_me (with_likes viewer db' post)
           = PostWithLikes.liked_by_me (with_likes viewer db post)).
Proof.
  intros (-> & _ & _)%like_post_Ok. split; [done|]. intros viewer post.
  set (new_like := LikeDB.Build _ _ _). split_and!.
  - rewrite !with_likes_count. simpl. rewrite filter_app, length_app.
    f_equal. rewrite filter_cons. simpl.
    destruct (decide (post_id = PostDB.id post)), (decide (PostDB.id post = post_id));
      done.
  - intros Hid Hcaller. apply with_likes_liked.
    exists (User.id current_user), new_like. simpl.
    split_and!; try done. apply elem_of_app. right. by left.
  - intros Hother. apply bool_eq_true_iff. rewrite !with_likes_liked. simpl.
    split; intros (uid & l & -> & Huid & Hl & Hpid & Hl_uid);
      exists uid, l; split_and!; try done.
    + apply elem_of_app in Hl as [Hl|Hl%list_elem_of_singleton]; [done|].
      subst l. simpl in *. destruct Hother as [Hne|Hne]; [by destruct Hne|].
      destruct Hne. by rewrite Hl_uid.
    + apply elem_of_app. by left.
Qed.

Lemma like_post_shows_witness :
  PostWithLikes.likes_count (with_likes None (like_post "p1" user1 liked_db).2 hello) = 2%nat
  ∧ PostWithLikes.liked_by_me
      (with_likes (Some "1") (like_post "p1" user1 liked_db).2 hello) = true.
Proof.
  destruct (like_post_shows "p1" user1 liked_db (like_post "p1" user1 liked_db).2 "Liked")
    as [_ Hrows]; [done|].
  destruct (Hrows None hello) as (Hcount & Hmine & _). split.
  - by rewrite Hcount.
  - by apply Hmine.
Defined.

(** Rows of a table with a unique key are told apart by the key. *)
Lemma key_inj {A K} `{EqDecision K} (key : A → K) (rows : list A) (x y : A) :
  NoDup (key <$> rows) → x ∈ rows → y ∈ rows → key x = key y → x = y.
Proof.
  intros Hnd Hx Hy Hkey.
  pose proof (first_filter_by_key key rows x Hnd Hx) as Hfx.
  pose proof (first_filter_by_key key rows y Hnd Hy) as Hfy.
  rewrite Hkey in Hfx. congruence.
Qed.

(** What [unlike_post] does when it succeeds. *)
Lemma unlike_post_Ok post_id current_user db db' :
  unlike_post post_id current_user db = (Ok (), db') →
  ∃ like,
    like ∈ likes db
    ∧ LikeDB.user_id like = User.id current_user ∧ LikeDB.post_id like = post_id
    ∧ db' = mkDb (users db) (posts db)
                 (filter (λ k, LikeDB.id k ≠ LikeDB.id like) (likes db)).
Proof.
  unfold unlike_post. destruct (first _) as [like|] eqn:Hlike; [|done].
  apply first_filter_by_Some in Hlike as (Hin & Huid & Hpid).
  intros [= <-]. by exists like.
Qed.

(** After an unlike that succeeded the posts are the same, the post counts
    one like less for every viewer and the others count what they did; the
    caller no longer sees liked_by_me on the post, and nothing else about
    liked_by_me changes. *)
Theorem unlike_post_shows (post_id : string) (current_user : User.t) (db db' : Db)
    (Hids : NoDup (LikeDB.id <$> likes db))
    (Hkeys : NoDup (like_key <$> likes db)) :
  unlike_post post_id current_user db = (Ok (), db') →
  posts db' = posts db
  ∧ ∀ viewer post,
      PostWithLikes.likes_count (with_likes viewer db post)
      = (PostWithLikes.likes_count (with_likes viewer db' post)
         + if decide (PostDB.id post = post_id) then 1 else 0)%nat
      ∧ (PostDB.id post = post_id →
           PostWithLikes.liked_by_me
             (with_likes (Some (User.id current_user)) db' post) = false)
      ∧ (PostDB.id post ≠ post_id ∨ viewer ≠ Some (User.id current_user) →
           PostWithLikes.liked_by_me (with_likes viewer db' post)
           = PostWithLikes.liked_by_me (with_likes viewer db post)).
Proof.
  intros (like & Hlike & Huid & Hpid & ->)%unlike_post_Ok. split; [done|].
  intros viewer post.
  pose proof (delete_by_key LikeDB.id (likes db) like Hids Hlike) as Hperm.
  set (rest := filter _ (likes db)) in *.
  assert (∀ k, k ∈ rest → k ∈ likes db ∧ like_key k ≠ like_key like) as Hrest.
  { intros k [Hne Hk]%list_elem_of_filter. split; [done|]. intros Hkey.
    apply Hne. f_equal. by apply (key_inj like_key (likes db)). }
  split_and!.
  - rewrite !with_likes_count. simpl. rewrite Hperm, filter_cons.
    destruct (decide (LikeDB.post_id like = PostDB.id post)),
             (decide (PostDB.id post = post_id)); simpl; try lia; congruence.
  - intros Hid. destruct (PostWithLikes.liked_by_me _) eqn:Hliked; [|done].
    apply with_likes_liked in Hliked as (uid & k & [= <-] & _ & Hk & Hk_pid & Hk_uid).
    simpl in Hk. destruct (Hrest k Hk) as [_ Hne]. destruct Hne.
    unfold like_key. congruence.
  - intros Hother. apply bool_eq_true_iff. rewrite !with_likes_liked. simpl.
    split; intros (uid & k & -> & Hne & Hk & Hk_pid & Hk_uid);
      exists uid, k; split_and!; try done.
    + by apply Hrest.
    + rewrite Hperm in Hk. apply elem_of_cons in Hk as [->|Hk]; [|done].
      destruct Hother as [Hno|Hno]; destruct Hno; congruence.
Qed.

Lemma unlike_post_shows_witness :
  PostWithLikes.likes_count (with_likes None liked_db hello)
  = (PostWithLikes.likes_count
       (with_likes None (unlike_post "p1" user2 liked_db).2 hello) + 1)%nat
  ∧ PostWithLikes.liked_by_me
      (with_likes (Some "2") (unlike_post "p1" user2 liked_db).2 hello) = false.
Proof.
  assert (NoDup (LikeDB.id <$> likes liked_db)) as Hids by by apply (bool_decide_unpack _).
  assert (NoDup (like_key <$> likes liked_db)) as Hkeys by by apply (bool_decide_unpack _).
  destruct (unlike_post_shows "p1" user2 liked_db (unlike_post "p1" user2 liked_db).2
              Hids Hkeys) as [_ Hrows]; [done|].
  destruct (Hrows None hello) as (Hcount & _ & _).
  destruct (Hrows (Some "2") hello) as (_ & Hmine & _). split.
  - exact Hcount.
  - by apply Hmine.
Defined.

(** ** Listings after a change *)

(** [optional_user_id] reads the users table only, [with_likes] the likes
    table only. *)
Lemma optional_user_id_users authorization db db' :
  users db' = users db →
  optional_user_id authorization db' = optional_user_id authorization db.
Proof. intros Hu. unfold optional_user_id. by rewrite Hu. Qed.

Lemma with_likes_likes viewer db db' post :
  likes db' = likes db → with_likes viewer db' post = with_likes viewer db post.
Proof. intros Hl. unfold with_likes. by rewrite Hl. Qed.

(** The first row of a sorted rearrangement is the strictly newest post. *)
Lemma newest_first_head (stored sorted : list PostDB.t) (new_post : PostDB.t) :
  StronglySorted newer_first sorted →
  sorted ≡ₚ stored ++ [new_post] →
  (∀ p, p ∈ stored → (PostDB.timestamp p < PostDB.timestamp new_post)%Z) →
  ∃ rest, sorted = new_post :: rest.
Proof.
  intros Hsorted Hperm Hnewest.
  destruct sorted as [|h t].
  { apply Permutation_nil_l in Hperm. by destruct stored. }
  assert (new_post ∈ h :: t) as Hnew by (rewrite Hperm, elem_of_app; right; by left).
  assert (h ∈ (stored ++ [new_post])%list) as Hh by (rewrite <- Hperm; by left).
  apply elem_of_app in Hh as [Hh| ->%list_elem_of_singleton]; [|by eexists].
  apply elem_of_cons in Hnew as [->|Hnew]; [by eexists|].
  apply StronglySorted_inv in Hsorted as [_ Hall].
  rewrite Forall_forall in Hall. specialize (Hall new_post Hnew).
  specialize (Hnewest h Hh). unfold newer_first in Hall. lia.
Qed.

(** A post created with a fresh id and a time after every stored post is
    the first row of the next listing of all posts, for every viewer, with
    the caller as owner, no like and liked_by_me false. *)
Theorem created_post_is_listed_first (authorization : option string)
    (body : gmap string string) (uuid4 : string) (now : Z) (db : Db)
    (current_user : User.t) (text : string) :
  Depends_get_current_user authorization db = Ok current_user →
  body !! "text" = Some text →
  uuid4 ∉ PostDB.id <$> posts db →
  (∀ p, p ∈ posts db → (PostDB.timestamp p < now)%Z) →
  (∀ l, l ∈ likes db → LikeDB.post_id l ∈ PostDB.id <$> posts db) →
  ∀ viewer, ∃ rest,
    list_posts viewer (serve (POST_posts authorization body uuid4 now) db).2
    = Ok (PostWithLikes.Build uuid4 text now (User.id current_user)
                              (User.username current_user) 0 false :: rest).
Proof.
  intros Hdep Htext Hfresh Hnewest Hrefs viewer.
  simpl. unfold with_current_user, parse_PostCreate, create_post, insert_post.
  rewrite Hdep, Htext. simpl. rewrite bool_decide_eq_false_2 by done. simpl.
  set (new_post := PostDB.Build _ _ _ _ _).
  unfold list_posts. simpl.
  destruct (optional_user_id_spec viewer (mkDb (users db) (posts db ++ [new_post]) (likes db)))
    as (caller & -> & _). simpl.
  destruct (newest_first_head (posts db) (order_by_timestamp_desc (posts db ++ [new_post]))
              new_post) as [rest ->].
  - apply order_by_timestamp_desc_sorted.
  - apply order_by_timestamp_desc_Permutation.
  - done.
  - eexists. rewrite fmap_cons. f_equal. f_equal.
    assert (filter (λ l, LikeDB.post_id l = uuid4) (likes db) = []) as Hnone.
    { apply (filter_by_nil (λ l, LikeDB.post_id l = uuid4)).
      intros l Hl Hpid. apply Hfresh. rewrite <- Hpid. by apply Hrefs. }
    unfold with_likes, count, filter_by. simpl. rewrite Hnone. simpl. f_equal.
    destruct caller as [uid|]; [|done]. destruct (truthy uid); [|done].
    apply bool_decide_eq_false_2. intros Hsome. apply Hsome.
    apply first_filter_by_None. intros l Hl [Hpid _].
    apply Hfresh. rewrite <- Hpid. by apply Hrefs.
Qed.

Lemma created_post_is_listed_first_witness :
  ∃ rest,
    list_posts (Some "Bearer user2")
      (serve (POST_posts (Some "Bearer user1") {[ "text" := "again" ]} "p3" 300) liked_db).2
    = Ok (PostWithLikes.Build "p3" "again" 300 "1" "user1" 0 false :: rest).
Proof.
  apply (created_post_is_listed_first (Some "Bearer user1") {[ "text" := "again" ]}
           "p3" 300 liked_db user1 "again"); try done.
  - simpl. rewrite !elem_of_cons, elem_of_nil. by intros [?|[?|[]]].
  - intros p. simpl. rewrite !elem_of_cons, elem_of_nil. by intros [->|[->|[]]].
  - intros l. simpl. rewrite !elem_of_cons, elem_of_nil. intros [->|[]]. simpl. by left.
Defined.

(** The listing of one user's posts holds exactly the rows of the listing
    of all posts, asked for with the same header, whose owner is the user
    found under the name. *)
Theorem user_posts_within_all_posts (username : string) (authorization : option string)
    (db : Db) (rows : list PostWithLikes.t) :
  get_user_posts username authorization db = Ok rows →
  ∃ all user,
    list_posts authorization db = Ok all
    ∧ user ∈ users db ∧ UserDB.username user = username
    ∧ ∀ r, r ∈ rows ↔ r ∈ all ∧ PostWithLikes.owner_id r = UserDB.id user.
Proof.
  unfold get_user_posts, list_posts.
  destruct (first _) as [user|] eqn:Huser; [|done].
  apply first_filter_by_Some in Huser as [Hin Hname].
  destruct (optional_user_id_spec authorization db) as (caller & -> & _). simpl.
  intros [= <-]. exists (with_likes caller db <$> order_by_timestamp_desc (posts db)), user.
  split_and!; try done. intros r. unfold filter_by.
  rewrite !list_elem_of_fmap. split.
  - intros (p & -> & Hp). rewrite order_by_timestamp_desc_Permutation in Hp.
    apply list_elem_of_filter in Hp as [Howner Hp]. split; [|done].
    exists p. split; [done|]. by rewrite order_by_timestamp_desc_Permutation.
  - intros [(p & -> & Hp) Howner]. rewrite order_by_timestamp_desc_Permutation in Hp.
    exists p. split; [done|]. rewrite order_by_timestamp_desc_Permutation.
    by apply list_elem_of_filter.
Qed.

Lemma user_posts_within_all_posts_witness :
  ∃ all user,
    list_posts None liked_db = Ok all
    ∧ user ∈ users liked_db ∧ UserDB.username user = "user2"
    ∧ ∀ r, r ∈ [PostWithLikes.Build "p2" "world" 200 "2" "user2" 0 false]
           ↔ r ∈ all ∧ PostWithLikes.owner_id r = UserDB.id user.
Proof. by apply (user_posts_within_all_posts "user2" None liked_db). Defined.

(** After a delete that succeeded, a listing of all posts holds the rows it
    held before, unchanged, except the row of the deleted post. *)
Theorem deleted_post_is_unlisted (post_id : string) (current_user : User.t)
    (db db' : Db) (authorization : option string) (rows : list PostWithLikes.t) :
  delete_post post_id current_user db = (Ok (), db') →
  list_posts authorization db = Ok rows →
  ∃ rows',
    list_posts authorization db' = Ok rows'
    ∧ ∀ r, r ∈ rows' ↔ r ∈ rows ∧ PostWithLikes.id r ≠ post_id.
Proof.
  intros Hdel. unfold delete_post in Hdel.
  destruct (first _) as [post|] eqn:Hpost; [|done].
  apply first_filter_by_Some in Hpost as [_ Hid].
  case_bool_decide; [done|]. unfold delete_post_row in Hdel.
  destruct (filter_by _ (likes db)); [|done]. simpl in Hdel. injection Hdel as <-.
  set (db' := mkDb _ _ _).
  unfold list_posts. rewrite (optional_user_id_users authorization db db') by done.
  destruct (optional_user_id authorization db) as [caller|]; [|done]. simpl.
  intros [= <-]. eexists. split; [done|]. intros r.
  rewrite (list_fmap_ext (with_likes caller db') (with_likes caller db))
    by (intros i p _; by apply with_likes_likes).
  rewrite !list_elem_of_fmap. split.
  - intros (p & -> & Hp). rewrite order_by_timestamp_desc_Permutation in Hp.
    apply list_elem_of_filter in Hp as [Hne Hp]. split; [|simpl; congruence].
    exists p. split; [done|]. by rewrite order_by_timestamp_desc_Permutation.
  - intros [(p & -> & Hp) Hne]. rewrite order_by_timestamp_desc_Permutation in Hp.
    exists p. split; [done|]. rewrite order_by_timestamp_desc_Permutation.
    apply list_elem_of_filter. split; [|done]. simpl in Hne. congruence.
Qed.

Lemma deleted_post_is_unlisted_witness :
  ∃ rows',
    list_posts None (delete_post "p2" user2 liked_db).2 = Ok rows'
    ∧ ∀ r, r ∈ rows' ↔
           r ∈ [ PostWithLikes.Build "p2" "world" 200 "2" "user2" 0 false;
                 PostWithLikes.Build "p1" "hello" 100 "1" "user1" 1 false ]
           ∧ PostWithLikes.id r ≠ "p2".
Proof. by apply (deleted_post_is_unlisted "p2" user2 liked_db _ None). Defined.

(** ** What every reachable database satisfies *)

Lemma Depends_get_current_user_Ok authorization db current_user :
  Depends_get_current_user authorization db = Ok current_user →
  ∃ row, row ∈ users db ∧ current_user = User.from_orm row.
Proof.
  destruct authorization as [a|]; [|done]. simpl. unfold get_current_user.
  destruct (startswith a "Bearer "); [|done]. simpl.
  destruct (getitem _ _); [|done]. simpl.
  destruct (first _) as [row|] eqn:Hrow; [|done].
  apply first_filter_by_Some in Hrow as [Hin _].
  intros [= <-]. by exists row.
Qed.

Lemma create_post_refs post_data row uuid4 now db :
  row ∈ users db → refs_ok db →
  refs_ok (create_post post_data (User.from_orm row) uuid4 now db).2.
Proof.
  intros Hrow [Hposts Hlikes]. unfold create_post, insert_post. simpl.
  case_bool_decide; [done|]. split; [|done]. simpl.
  intros p [Hp| ->%list_elem_of_singleton]%elem_of_app; [by apply Hposts|].
  by exists row.
Qed.

Lemma delete_post_refs post_id current_user db :
  refs_ok db → refs_ok (delete_post post_id current_user db).2.
Proof.
  intros [Hposts Hlikes]. unfold delete_post. destruct (first _); [|done].
  case_bool_decide; [done|]. unfold delete_post_row.
  destruct (filter_by _ (likes db)); [|done]. split; [|done]. simpl.
  intros p [_ Hp]%list_elem_of_filter. by apply Hposts.
Qed.

Lemma like_post_refs post_id row db :
  row ∈ users db → refs_ok db → refs_ok (like_post post_id (User.from_orm row) db).2.
Proof.
  intros Hrow [Hposts Hlikes]. unfold like_post.
  destruct (like_post_reads _ _ _) as [new_like|] eqn:Hreads; [|done].
  apply like_post_reads_Ok in Hreads as (-> & _ & Hnone).
  unfold like_post_commit, insert_like. cbn [fst snd]. rewrite Hnone.
  split; [done|]. simpl.
  intros l [Hl| ->%list_elem_of_singleton]%elem_of_app; [by apply Hlikes|].
  by exists row.
Qed.

Lemma unlike_post_refs post_id current_user db :
  refs_ok db → refs_ok (unlike_post post_id current_user db).2.
Proof.
  intros [Hposts Hlikes]. unfold unlike_post. destruct (first _); [|done].
  split; [done|]. simpl. intros l [_ Hl]%list_elem_of_filter. by apply Hlikes.
Qed.

Lemma serve_refs req db : refs_ok db → refs_ok (serve req db).2.
Proof.
  intros Hok. destruct req; simpl; try done; unfold with_current_user;
    destruct (Depends_get_current_user authorization db) as [current_user|] eqn:Hdep;
    try done; apply Depends_get_current_user_Ok in Hdep as (row & Hrow & ->).
  - destruct (parse_PostCreate body); [|done].
    pose proof (create_post_refs a row uuid4 now db Hrow Hok).
    by destruct (create_post _ _ _ _ _).
  - pose proof (delete_post_refs post_id (User.from_orm row) db Hok).
    by destruct (delete_post _ _ _).
  - pose proof (like_post_refs post_id row db Hrow Hok).
    by destruct (like_post _ _ _).
  - pose proof (unlike_post_refs post_id (User.from_orm row) db Hok).
    by destruct (unlike_post _ _ _).
Qed.

Lemma reachable_refs db : reachable db → refs_ok db.
Proof.
  induction 1 as [db Hstart|db db' Hreach IH Hstart|req db _ IH].
  - rewrite on_startup_empty in Hstart. injection Hstart as <-.
    split; by intros ? ?%elem_of_nil.
  - rewrite on_startup_seeded in Hstart by apply (reachable_ok db Hreach).
    by injection Hstart as <-.
  - by apply serve_refs.
Qed.

(** On every database the service reaches: the users are the two seeded
    ones; every post is owned, by id and by name, by one of them and no two
    posts share an id; every like is by one of them, on a stored post, and
    no two likes share their (user, post) pair. *)
Theorem reachable_references (db : Db) :
  reachable db →
  users db = values FAKE_USERS_DB
  ∧ NoDup (PostDB.id <$> posts db)
  ∧ (∀ p, p ∈ posts db →
       ∃ u, u ∈ users db ∧ UserDB.id u = PostDB.owner_id p
            ∧ UserDB.username u = PostDB.owner_username p)
  ∧ NoDup (like_key <$> likes db)
  ∧ (∀ l, l ∈ likes db →
       (∃ u, u ∈ users db ∧ UserDB.id u = LikeDB.user_id l)
       ∧ ∃ p, p ∈ posts db ∧ PostDB.id p = LikeDB.post_id l).
Proof.
  intros Hreach.
  destruct (reachable_ok db Hreach) as [Hu Hp Hi Hk Ho].
  destruct (reachable_refs db Hreach) as [Hposts Hlikes].
  split_and!; try done. intros l Hl. split; [by apply Hlikes|].
  destruct (proj1 (list_elem_of_fmap _ _ _) (Ho l Hl)) as (p & Hid & Hp').
  by exists p.
Qed.

Lemma reachable_references_witness :
  NoDup (like_key <$> likes liked_db)
  ∧ ∀ l, l ∈ likes liked_db → ∃ p, p ∈ posts liked_db ∧ PostDB.id p = LikeDB.post_id l.
Proof.
  destruct (reachable_references liked_db reachable_liked_db) as (_ & _ & _ & Hk & Hl).
  split; [done|]. intros l Hin. by apply Hl.
Defined.

(** ** The counts of a listing add up *)

Lemma sum_list_with_add {A} (f g : A → nat) (rows : list A) :
  sum_list_with (λ x, f x + g x)%nat rows
  = (sum_list_with f rows + sum_list_with g rows)%nat.
Proof. induction rows as [|x rows IH]; simpl; [done|]. rewrite IH. lia. Qed.

Lemma sum_list_with_zero {A} (rows : list A) : sum_list_with (λ _, 0%nat) rows = 0%nat.
Proof. by induction rows. Qed.

(** A key that occurs once is counted once. *)
Lemma sum_indicator_key {A K} `{EqDecision K} (key : A → K) (rows : list A) (k : K) :
  NoDup (key <$> rows) → k ∈ key <$> rows →
  sum_list_with (λ x, if decide (k = key x) then 1 else 0)%nat rows = 1%nat.
Proof.
  induction rows as [|x rows IH]; simpl; [by intros _ ?%elem_of_nil|].
  rewrite NoDup_cons. intros [Hx Hnd] Hk.
  destruct (decide (k = key x)) as [->|Hne].
  - assert (sum_list_with (λ y, if decide (key x = key y) then 1 else 0)%nat rows = 0%nat)
      as ->; [|done].
    clear IH Hk Hnd. induction rows as [|y rows IH]; [done|]. simpl.
    rewrite fmap_cons, not_elem_of_cons in Hx. destruct Hx as [Hne Hx].
    destruct (decide (key x = key y)); [done|]. by apply IH.
  - apply elem_of_cons in Hk as [Hk|Hk]; [done|]. by rewrite IH.
Qed.

Lemma likes_per_post_add_up (stored : list PostDB.t) (rows : list LikeDB.t) :
  NoDup (PostDB.id <$> stored) →
  (∀ l, l ∈ rows → LikeDB.post_id l ∈ PostDB.id <$> stored) →
  sum_list_with
    (λ p, length (filter (λ l, LikeDB.post_id l = PostDB.id p) rows)) stored
  = length rows.
Proof.
  intros Hnd. induction rows as [|l rows IH]; intros Hrefs.
  - simpl. apply sum_list_with_zero.
  - assert (∀ some_posts : list PostDB.t,
      sum_list_with
        (λ p, length (filter (λ k, LikeDB.post_id k = PostDB.id p) (l :: rows))) some_posts
      = (sum_list_with (λ p, if decide (LikeDB.post_id l = PostDB.id p) then 1 else 0)
                       some_posts
         + sum_list_with
             (λ p, length (filter (λ k, LikeDB.post_id k = PostDB.id p) rows)) some_posts)%nat)
      as ->.
    { intros some_posts. rewrite <- sum_list_with_add.
      induction some_posts as [|p some_posts IH']; [done|].
      simpl. rewrite IH', filter_cons. f_equal.
      by destruct (decide (LikeDB.post_id l = PostDB.id p)). }
    rewrite (sum_indicator_key PostDB.id) by (try done; apply Hrefs; by left).
    rewrite IH by (intros k Hk; apply Hrefs; by right). done.
Qed.

(** On a database the service reaches, the likes_count fields of a listing
    of all posts add up to the number of like rows: every like is counted,
    and counted once. *)
Theorem likes_counts_add_up (authorization : option string) (db : Db)
    (rows : list PostWithLikes.t) :
  reachable db →
  list_posts authorization db = Ok rows →
  sum_list_with PostWithLikes.likes_count rows = length (likes db).
Proof.
  intros Hreach. destruct (reachable_ok db Hreach) as [_ Hp _ _ Ho].
  unfold list_posts. destruct (optional_user_id authorization db) as [caller|]; [|done].
  simpl. intros [= <-].
  rewrite <- (likes_per_post_add_up (posts db) (likes db) Hp Ho).
  rewrite <- (order_by_timestamp_desc_Permutation (posts db)) at 2.
  generalize (order_by_timestamp_desc (posts db)). intros sorted.
  induction sorted as [|p sorted IH]; [done|]. simpl. f_equal. apply IH.
Qed.

Lemma likes_counts_add_up_witness :
  sum_list_with PostWithLikes.likes_count
    [ PostWithLikes.Build "p2" "world" 200 "2" "user2" 0 false;
      PostWithLikes.Build "p1" "hello" 100 "1" "user1" 1 true ]
  = length (likes liked_db).
Proof.
  by apply (likes_counts_add_up (Some "Bearer user2") liked_db _ reachable_liked_db).
Defined.

(** ** Start-up *)

Lemma insert_users_Raise (e : exn) (rows : list UserDB.t) :
  foldl (λ acc u, d ← acc; insert_user u d) (Raise e) rows = Raise e.
Proof. by induction rows. Qed.

Lemma insert_users_Ok (rows : list UserDB.t) (db db' : Db) :
  foldl (λ acc u, d ← acc; insert_user u d) (Ok db) rows = Ok db' →
  users db' = (users db ++ rows)%list ∧ posts db' = posts db ∧ likes db' = likes db.
Proof.
  revert db. induction rows as [|u rows IH]; intros db; simpl.
  - intros [= <-]. by rewrite app_nil_r.
  - unfold insert_user at 2. destruct (_ || _); [by rewrite insert_users_Raise|].
    intros (-> & -> & ->)%IH. simpl. by rewrite <- app_assoc.
Qed.

Lemma username_stored (name : string) (rows : list UserDB.t) :
  first (filter_by (λ r, UserDB.username r = name) rows) = None ↔
  name ∉ UserDB.username <$> rows.
Proof.
  rewrite first_filter_by_None, list_elem_of_fmap. split.
  - intros Hnone (u & -> & Hu). by apply (Hnone u).
  - intros Hnone u Hu Hname. apply Hnone. by exists u.
Qed.

(** A start-up that succeeds touches neither posts nor likes, keeps the
    stored users and only appends seeded ones; afterwards every seeded name
    is stored, and a further start-up changes nothing. *)
Theorem on_startup_seeds (db db' : Db) :
  on_startup db = Ok db' →
  posts db' = posts db ∧ likes db' = likes db
  ∧ (∃ added, users db' = (users db ++ added)%list
              ∧ ∀ u, u ∈ added → u ∈ values FAKE_USERS_DB)
  ∧ (∀ u, u ∈ values FAKE_USERS_DB →
       UserDB.username u ∈ UserDB.username <$> users db')
  ∧ on_startup db' = Ok db'.
Proof.
  unfold on_startup at 1.
  set (missing := filter _ (values FAKE_USERS_DB)).
  intros (Husers & Hposts & Hlikes)%insert_users_Ok.
  assert (∀ u, u ∈ values FAKE_USERS_DB →
            UserDB.username u ∈ UserDB.username <$> users db') as Hall.
  { intros u Hu. rewrite Husers, fmap_app, elem_of_app.
    destruct (decide (UserDB.username u ∈ UserDB.username <$> users db)) as [|Hnew];
      [by left|right].
    apply list_elem_of_fmap_2, list_elem_of_filter. split; [|done].
    by apply username_stored. }
  split_and!; try done.
  - exists missing. split; [done|]. by intros u [_ Hu]%list_elem_of_filter.
  - unfold on_startup.
    assert (filter (λ u, first (filter_by (λ r, UserDB.username r = UserDB.username u)
                                          (users db')) = None)
                   (values FAKE_USERS_DB) = []) as ->; [|done].
    apply (filter_by_nil (λ u, first (filter_by
             (λ r, UserDB.username r = UserDB.username u) (users db')) = None)).
    intros u Hu Hnone. apply username_stored in Hnone. by apply Hnone, Hall.
Qed.

Lemma on_startup_seeds_witness :
  posts seeded_db = posts empty_db
  ∧ on_startup seeded_db = Ok seeded_db.
Proof.
  destruct (on_startup_seeds empty_db seeded_db) as (Hposts & _ & _ & _ & Hagain); done.
Defined.

(** A database that already holds one seeded user under his name is
    completed with the other one. *)
Example on_startup_completes :
  on_startup (mkDb [UserDB.Build "2" "user2" "changed"] [world] [])
  = Ok (mkDb [UserDB.Build "2" "user2" "changed"; UserDB.Build "1" "user1" "password1"]
             [world] []).
Proof. reflexivity. Qed.

(** ** The same request, twice *)

(** The like that follows a like that succeeded, by the same caller on the
    same post, is refused with 400 and stores nothing. *)
Theorem second_like_is_refused (post_id : string) (current_user : User.t) (db db' : Db)
    (message : string) :
  like_post post_id current_user db = (Ok message, db') →
  like_post post_id current_user db' = (Raise already_liked, db').
Proof.
  intros (-> & (post & Hpost & Hid) & _)%like_post_Ok.
  unfold like_post, like_post_reads. simpl.
  destruct (first_filter_by_is_Some (λ p, PostDB.id p = post_id) (posts db) post Hpost Hid)
    as [q ->].
  set (new_like := LikeDB.Build _ _ _).
  by destruct (first_filter_by_is_Some
    (λ l, LikeDB.user_id l = User.id current_user ∧ LikeDB.post_id l = post_id)
    (likes db ++ [new_like]) new_like) as [k ->];
    [apply elem_of_app; right; by left|done|].
Qed.

Lemma second_like_is_refused_witness :
  like_post "p1" user1 (like_post "p1" user1 liked_db).2
  = (Raise already_liked, (like_post "p1" user1 liked_db).2).
Proof. by apply (second_like_is_refused "p1" user1 liked_db _ "Liked"). Defined.

(** The unlike that follows an unlike that succeeded, by the same caller on
    the same post, is answered 404 and changes nothing. *)
Theorem second_unlike_is_not_found (post_id : string) (current_user : User.t)
    (db db' : Db)
    (Hids : NoDup (LikeDB.id <$> likes db))
    (Hkeys : NoDup (like_key <$> likes db)) :
  unlike_post post_id current_user db = (Ok (), db') →
  unlike_post post_id current_user db' = (Raise like_not_found, db').
Proof.
  intros (like & Hlike & Huid & Hpid & ->)%unlike_post_Ok.
  unfold unlike_post. simpl.
  rewrite (proj2 (first_filter_by_None _ _)); [done|].
  intros k [Hne Hk]%list_elem_of_filter [Hk_uid Hk_pid]. apply Hne. f_equal.
  apply (key_inj like_key (likes db)); try done. unfold like_key. congruence.
Qed.

Lemma second_unlike_is_not_found_witness :
  unlike_post "p1" user2 (unlike_post "p1" user2 liked_db).2
  = (Raise like_not_found, (unlike_post "p1" user2 liked_db).2).
Proof.
  assert (NoDup (LikeDB.id <$> likes liked_db)) as Hids by by apply (bool_decide_unpack _).
  assert (NoDup (like_key <$> likes liked_db)) as Hkeys by by apply (bool_decide_unpack _).
  by apply (second_unlike_is_not_found "p1" user2 liked_db _ Hids Hkeys).
Defined.

(** Once a delete has succeeded the post id is gone for everybody: a
    further delete and a like are answered 404 for the post, an unlike 404
    for the like, and none of them changes anything. *)
Theorem deleted_post_is_gone (post_id : string) (current_user : User.t) (db db' : Db) :
  delete_post post_id current_user db = (Ok (), db') →
  ∀ anyone,
    delete_post post_id anyone db' = (Raise post_not_found, db')
    ∧ like_post post_id anyone db' = (Raise post_not_found, db')
    ∧ unlike_post post_id anyone db' = (Raise like_not_found, db').
Proof.
  intros Hdel anyone.
  pose proof (delete_post_Ok_unliked _ _ _ _ Hdel) as Hunliked.
  revert Hdel. unfold delete_post at 1.
  destruct (first _) as [post|] eqn:Hpost; [|done].
  apply first_filter_by_Some in Hpost as [_ Hid].
  case_bool_decide; [done|]. unfold delete_post_row.
  destruct (filter_by _ (likes db)); [|done]. simpl. intros [= <-].
  assert (first (filter_by (λ p, PostDB.id p = post_id)
                   (filter (λ q, PostDB.id q ≠ PostDB.id post) (posts db))) = None)
    as Hgone.
  { apply first_filter_by_None. intros p [Hne _]%list_elem_of_filter Hp. congruence. }
  split_and!.
  - unfold delete_post. simpl. by rewrite Hgone.
  - unfold like_post, like_post_reads. simpl. by rewrite Hgone.
  - unfold unlike_post. simpl.
    rewrite (proj2 (first_filter_by_None _ _)); [done|].
    intros l Hl [_ Hpid]. by apply (Hunliked l).
Qed.

Lemma deleted_post_is_gone_witness :
  like_post "p2" user1 (delete_post "p2" user2 liked_db).2
  = (Raise post_not_found, (delete_post "p2" user2 liked_db).2).
Proof. by apply (deleted_post_is_gone "p2" user2 liked_db _ eq_refl user1). Defined.
